(** * NFL totals projection model: the projection engine of [model.py]

    A shallow embedding of the numeric core of [model.py] together with the
    properties its specification states about it.

    Modelling conventions.
    - A Python float is an exact rational number ([Q]); equality of results
      is equality of rationals ([==]), and [=] is used where the code hands
      a value through untouched.  Rounding of binary floating point is not
      part of this reading, and an identity of the exact reading need not
      survive it.  Where rounding decides a property, the line is read in
      binary64 on Rocq's primitive [float] ([calculate_net_epa_b64]).
    - A Python int (games played, injury counts) is a [Z]; where the code
      multiplies an int by a float the int is injected with [inject_Z].
      The conversion fails in Python for an int beyond the range of a
      float: [project_team_score] is the engine for counts that convert,
      [project_team_score_checked] the engine for every int.
    - Python's [None] is the [None] of [value := option Q].
    - A statistics record is a Python dict with string keys: a
      [gmap string value].  [d[k]] raises [KeyError] on a missing key,
      [d.get(k, default)] does not.
    - Exceptions are the [Raise] outcomes of the [result] type. *)

From Stdlib Require Import QArith Qabs Lqa ZArith Lia List Ascii Floats.
From stdpp Require Import gmap strings.
Import ListNotations.

Local Open Scope string_scope.
Local Open Scope Q_scope.

(** Decimal float literals are read as the nearest binary64 value, as in
    Python. *)
Set Warnings "-inexact-float".

(** ** Comparisons on floats, as booleans *)

Definition Qleb (x y : Q) : bool := Qle_bool x y.          (* x <= y *)
Definition Qgeb (x y : Q) : bool := Qle_bool y x.          (* x >= y *)
Definition Qltb (x y : Q) : bool := negb (Qle_bool y x).   (* x <  y *)
Definition Qgtb (x y : Q) : bool := negb (Qle_bool x y).   (* x >  y *)

(** The builtins [min(a, b)] and [max(a, b)]: the first argument wins
    unless the second is strictly smaller (resp. larger). *)
Definition py_min (a b : Q) : Q := if Qltb b a then b else a.
Definition py_max (a b : Q) : Q := if Qgtb b a then b else a.

(** ** Blending functions (model.py, lines 4-94) *)

Definition calculate_net_epa (off_epa def_epa_allowed : Q) : Q :=
  ((off_epa * 1.6) + (def_epa_allowed * 1.0)) / 2.6.

Definition calculate_weighted_epa (season_epa last_5_epa : Q) (games_played : Z) : Q :=
  if (games_played <=? 5)%Z then
    season_epa
  else if (games_played <=? 10)%Z then
    (season_epa * 0.65) + (last_5_epa * 0.35)
  else if (games_played <=? 14)%Z then
    (season_epa * 0.50) + (last_5_epa * 0.50)
  else
    (season_epa * 0.40) + (last_5_epa * 0.60).

Definition calculate_expected_pass_rate
    (team_pass_rate proe def_pass_rate_against league_avg_pass_rate spread : Q) : Q :=
  let team_tendency := team_pass_rate + proe in
  let defense_influence := def_pass_rate_against - league_avg_pass_rate in
  let base_expected :=
    (team_tendency * 0.6) + ((team_pass_rate + defense_influence) * 0.4) in
  let spread_adjustment :=
    if Qgeb spread 7 then 0.05
    else if Qgeb spread 4 then 0.03
    else if Qleb spread (-7) then - 0.04
    else if Qleb spread (-4) then - 0.02
    else 0.0 in
  base_expected + spread_adjustment.

Definition calculate_expected_plays (team_pace opp_pace spread : Q) : Q :=
  let base_plays := (team_pace + opp_pace) / 2 in
  let pace_adjustment :=
    if Qleb (Qabs spread) 3 then 3.0
    else if Qgeb (Qabs spread) 10 then - 4.0
    else 0.0 in
  base_plays + pace_adjustment.

(** The dict literal [precip_impact] of [calculate_weather_adjustment]. *)
Definition precip_impact : gmap string Q :=
  {[ "heavy_rain" := 3.0; "light_snow" := 2.0;
     "heavy_snow" := 4.0; "blizzard" := 8.0 ]}.

Definition calculate_weather_adjustment
    (wind_mph temp_f : Q) (precipitation : string) : Q :=
  let adjustment := 0.0 in
  let adjustment :=
    if Qgeb wind_mph 20 then adjustment + 6.0
    else if Qgeb wind_mph 15 then adjustment + 3.0
    else if Qgeb wind_mph 10 then adjustment + 1.0
    else adjustment in
  let adjustment :=
    if Qltb temp_f 0 then adjustment + 2.0 else adjustment in
  let adjustment :=
    adjustment + default 0.0 (precip_impact !! precipitation) in
  adjustment.

(** [calculate_success_rate_adjustment(success_rate, league_avg=0.46,
    weight=55)]: the keyword defaults are the two constants below. *)
Definition default_league_avg : Q := 0.46.

Definition calculate_success_rate_adjustment (success_rate league_avg weight : Q) : Q :=
  let differential := success_rate - league_avg in
  differential * weight.

(** ** The combiner in binary64 (model.py, line 9)

    The definitions above read a float as an exact rational.  Where
    rounding decides a property, the line is read in binary64 instead:
    Rocq's primitive [float] is the IEEE 754 binary64 format of a Python
    float, with the same correctly rounded operations, and a decimal
    literal denotes the nearest binary64 value in both. *)
Definition calculate_net_epa_b64 (off_epa def_epa_allowed : float) : float :=
  (((off_epa * 1.6) + (def_epa_allowed * 1.0)) / 2.6)%float.

(** [x == 0 or 2**-200 <= abs(x) <= 2**200]: a float that is zero or of a
    magnitude far from overflow and underflow. *)
Definition moderate (x : float) : bool :=
  is_zero x || ((0x1p-200 <=? abs x)%float && (abs x <=? 0x1p200)%float).

(** *** Binary64 values as the Standard Library specifies them

    [Prim2SF] maps a float to its sign, mantissa and exponent
    ([spec_float]); the operations on these are [SF64mul], [SF64add] and
    [SF64div]. *)

(** The double of a value: one more in the exponent, or the infinity when
    that leaves the format. *)
Definition sf_double (x : spec_float) : spec_float :=
  match x with
  | S754_finite s m e =>
      if (e + 1 <=? emax - prec)%Z then S754_finite s m (e + 1)
      else S754_infinity s
  | _ => x
  end.

(** Zero, or finite with at most 53 digits and the exponent between two
    bounds. *)
Definition fits (lo hi : Z) (x : spec_float) : Prop :=
  match x with
  | S754_zero _ => True
  | S754_finite _ m e => (lo <= e <= hi)%Z /\ (Z.pos m < 2 ^ 53)%Z
  | _ => False
  end.

(** The floats [2.0], [1.6], [1.0] and [2.6]. *)
Definition sf_two : spec_float := S754_finite false 4503599627370496 (-51).
Definition sf_1_6 : spec_float := S754_finite false 7205759403792794 (-52).
Definition sf_1_0 : spec_float := S754_finite false 4503599627370496 (-52).
Definition sf_2_6 : spec_float := S754_finite false 5854679515581645 (-51).

(** [calculate_net_epa_b64] on specified values. *)
Definition net_sf (o d : spec_float) : spec_float :=
  SF64div (SF64add (SF64mul o sf_1_6) (SF64mul d sf_1_0)) sf_2_6.

(** ** Values, records and exceptions *)

(** A value stored in a statistics record or passed as an optional
    argument: a float, or Python's [None]. *)
Definition value : Type := option Q.

(** The exceptions the engine can raise. *)
Inductive exn : Type :=
  | KeyError (key : string)
  | TypeError
  | OverflowError.

Inductive result (A : Type) : Type :=
  | Ok (a : A)
  | Raise (e : exn).
Arguments Ok {A} a.
Arguments Raise {A} e.

(** Sequencing: an exception ends the call.  [x ← m; k] is stdpp's
    notation for [mbind (fun x => k) m]. *)
#[global] Instance result_bind : MBind result := fun A B k m =>
  match m with
  | Ok a => k a
  | Raise e => Raise e
  end.

(** [d[key]]. *)
Definition getitem {A : Type} (d : gmap string A) (key : string) : result A :=
  match d !! key with
  | Some v => Ok v
  | None => Raise (KeyError key)
  end.

(** [d.get(key, dflt)]. *)
Definition get {A : Type} (d : gmap string A) (key : string) (dflt : A) : A :=
  default dflt (d !! key).

(** Arithmetic on a value: [None] in a float operation is a [TypeError]. *)
Definition num (v : value) : result Q :=
  match v with
  | Some q => Ok q
  | None => Raise TypeError
  end.

(** The call [calculate_weighted_epa(s, l, g)] on two values read from a
    record.  On floats it is the function above.  With a [None] among
    them: for [g <= 5] the season value is returned as it is, [None]
    included, and the recent value is never touched; otherwise both are
    multiplied by a float, which raises [TypeError]. *)
Definition weighted (season_epa last_5_epa : value) (games_played : Z) : result value :=
  match season_epa, last_5_epa with
  | Some s, Some l => Ok (Some (calculate_weighted_epa s l games_played))
  | _, _ => if (games_played <=? 5)%Z then Ok season_epa else Raise TypeError
  end.

(** ** merge_team_data (model.py, lines 240-298) *)

(** The record built for one team (lines 271-293) from the team's rows of
    the five loaded tables; [tend.get('pace')] and
    [tend.get('def_pass_rate_against')] have no default and give [None]. *)
Definition merge_team (tend off_s off_l def_s def_l : gmap string Q) : gmap string value :=
  list_to_map [
    ("pass_rate", Some (get tend "pass_rate" 0.60));
    ("proe", Some (get tend "proe" 0.0));
    ("pace", tend !! "pace");
    ("def_pass_rate_against", tend !! "def_pass_rate_against");
    ("season_pass_epa", Some (get off_s "dropback_epa" 0.0));
    ("last5_pass_epa", Some (get off_l "dropback_epa" 0.0));
    ("season_run_epa", Some (get off_s "rush_epa" 0.0));
    ("last5_run_epa", Some (get off_l "rush_epa" 0.0));
    ("season_pass_success", Some (get off_s "dropback_sr" 0.46));
    ("last5_pass_success", Some (get off_l "dropback_sr" 0.46));
    ("season_run_success", Some (get off_s "rush_sr" 0.43));
    ("last5_run_success", Some (get off_l "rush_sr" 0.43));
    ("def_season_pass_epa", Some (get def_s "dropback_epa" 0.0));
    ("def_last5_pass_epa", Some (get def_l "dropback_epa" 0.0));
    ("def_season_run_epa", Some (get def_s "rush_epa" 0.0));
    ("def_last5_run_epa", Some (get def_l "rush_epa" 0.0))
  ].

(** Truth value of a loaded table: [None] and the empty dict are false. *)
Definition truthy (t : option (gmap string (gmap string Q))) : bool :=
  match t with
  | Some m => negb (bool_decide (m = ∅))
  | None => false
  end.

Definition merge_team_data
    (tendencies off_season off_l5 def_season def_l5 : option (gmap string (gmap string Q)))
    : option (gmap string (gmap string value)) :=
  if negb (forallb truthy [tendencies; off_season; off_l5; def_season; def_l5]) then
    None
  else
    let table t := default ∅ t in
    Some (map_imap (fun team tend =>
            let off_s := get (table off_season) team ∅ in
            let off_l := get (table off_l5) team ∅ in
            let def_s := get (table def_season) team ∅ in
            let def_l := get (table def_l5) team ∅ in
            Some (merge_team tend off_s off_l def_s def_l))
          (table tendencies)).

(** ** project_team_score (model.py, lines 301-405) *)

(** The returned dict. *)
Record projection : Type := {
  score : Q;
  pass_rate : Q;
  plays : Q;
  pass_attempts : Q;
  matchup_epa : Q;
  success_rate : Q;
  success_adjustment : Q
}.

(** The local variables when line 377 is reached.  [d_pass], [d_run] and
    [run_success] have been through no float operation yet on at least one
    path, so they are still values. *)
Record adjusted : Type := {
  o_pass : Q;
  o_run : Q;
  d_pass : value;
  d_run : value;
  pass_success : Q;
  run_success : value;
  expected_pass_rate : Q;
  expected_plays : Q
}.

(** [override if override is not None else from_stats] (lines 311-313). *)
Definition resolve (override from_stats : value) : value :=
  match override with
  | Some _ => override
  | None => from_stats
  end.

(** The safety check of lines 316-319:
    [if pace == 0 or pace is None: pace = 62.0]. *)
Definition safe_pace (pace : value) : Q :=
  match pace with
  | Some p => if Qeq_bool p 0 then 62.0 else p
  | None => 62.0
  end.

(** The dict literal [home_adj] (line 369). *)
Definition home_adj : gmap string Q :=
  {[ "weak" := 0.01; "average" := 0.015; "strong" := 0.025 ]}.

(** Lines 310-375: everything up to and including the home field
    adjustment.  The keyword defaults of the signature
    ([home_strength="average"], the three overrides [None]) are written
    out by the caller. *)
Definition project_team_score_adjust
    (team_stats opp_stats : gmap string value) (is_home : bool)
    (team_games_played opp_games_played : Z) (spread : Q) (qb_out : bool)
    (elite_wr_out ol_missing edge_missing : Z) (league_avg_pass_rate : Q)
    (home_strength : string)
    (pace_override opp_pace_override def_pass_rate_override : value)
    : result adjusted :=
  (* Use overrides if provided, otherwise use from stats *)
  let team_pace := resolve pace_override (get team_stats "pace" (Some 65.0)) in
  let opp_pace := resolve opp_pace_override (get opp_stats "pace" (Some 65.0)) in
  let def_pass_rate_against :=
    resolve def_pass_rate_override (get opp_stats "def_pass_rate_against" (Some 0.60)) in
  (* Safety check: ensure no zero pace *)
  let team_pace := safe_pace team_pace in
  let opp_pace := safe_pace opp_pace in
  (* Extract stats *)
  team_pass_rate ← getitem team_stats "pass_rate";
  proe ← getitem team_stats "proe";
  (* Weight EPA *)
  s ← getitem team_stats "season_pass_epa";
  l ← getitem team_stats "last5_pass_epa";
  o_pass ← weighted s l team_games_played;
  s ← getitem team_stats "season_run_epa";
  l ← getitem team_stats "last5_run_epa";
  o_run ← weighted s l team_games_played;
  s ← getitem opp_stats "def_season_pass_epa";
  l ← getitem opp_stats "def_last5_pass_epa";
  d_pass ← weighted s l opp_games_played;
  s ← getitem opp_stats "def_season_run_epa";
  l ← getitem opp_stats "def_last5_run_epa";
  d_run ← weighted s l opp_games_played;
  (* Weight success rates (team only) *)
  s ← getitem team_stats "season_pass_success";
  l ← getitem team_stats "last5_pass_success";
  pass_success ← weighted s l team_games_played;
  s ← getitem team_stats "season_run_success";
  l ← getitem team_stats "last5_run_success";
  run_success ← weighted s l team_games_played;
  (* Calculate expected pass rate: its arithmetic needs three floats *)
  team_pass_rate ← num team_pass_rate;
  proe ← num proe;
  def_pass_rate_against ← num def_pass_rate_against;
  let expected_pass_rate :=
    calculate_expected_pass_rate team_pass_rate proe def_pass_rate_against
      league_avg_pass_rate spread in
  (* Calculate expected plays *)
  let expected_plays := calculate_expected_plays team_pace opp_pace spread in
  (* Apply injury adjustments.  [o_pass] and [pass_success] go through a
     float operation on every path (line 349 or 354, line 352 or 356), in
     this order and with nothing else that can raise in between. *)
  o_pass ← num o_pass;
  pass_success ← num pass_success;
  let '(o_pass, expected_pass_rate, expected_plays, pass_success) :=
    if qb_out then
      (o_pass - 0.20, expected_pass_rate - 0.07, expected_plays - 3.0, pass_success - 0.05)
    else
      (o_pass, expected_pass_rate, expected_plays, pass_success) in
  let o_pass := o_pass - (inject_Z elite_wr_out * 0.06) in
  let expected_pass_rate := expected_pass_rate - (inject_Z elite_wr_out * 0.02) in
  let pass_success := pass_success - (inject_Z elite_wr_out * 0.02) in
  let o_pass := o_pass - (inject_Z ol_missing * 0.02) in
  let '(expected_pass_rate, pass_success) :=
    if (ol_missing >=? 2)%Z then
      (expected_pass_rate - 0.02, pass_success - 0.03)
    else
      (expected_pass_rate, pass_success) in
  edge ←
    (if (edge_missing >=? 1)%Z then
       d ← num d_pass;
       Ok (Some (d + 0.03), o_pass + 0.03, expected_pass_rate + 0.025)
     else
       Ok (d_pass, o_pass, expected_pass_rate));
  let '(d_pass, o_pass, expected_pass_rate) := edge in
  (* Home field adjustment: [home_adj[home_strength]] is looked up on both
     branches, once per statement *)
  home ←
    (if is_home then
       h ← getitem home_adj home_strength;
       let o_pass := o_pass + h in
       h ← getitem home_adj home_strength;
       r ← num o_run;
       Ok (o_pass, r + h)
     else
       h ← getitem home_adj home_strength;
       let o_pass := o_pass - h in
       h ← getitem home_adj home_strength;
       r ← num o_run;
       Ok (o_pass, r - h));
  let '(o_pass, o_run) := home in
  Ok {| o_pass := o_pass; o_run := o_run; d_pass := d_pass; d_run := d_run;
        pass_success := pass_success; run_success := run_success;
        expected_pass_rate := expected_pass_rate;
        expected_plays := expected_plays |}.

(** Lines 377-405: efficiency, the cap on the pass rate, the score. *)
Definition project_team_score_combine (st : adjusted) (pts_per_play_base : Q)
    : result projection :=
  (* Calculate efficiency *)
  d ← num (d_pass st);
  let net_pass_epa := calculate_net_epa (o_pass st) d in
  d ← num (d_run st);
  let net_run_epa := calculate_net_epa (o_run st) d in
  (* Cap pass rate between 35% and 75% *)
  let final_pass_rate := py_max 0.35 (py_min 0.75 (expected_pass_rate st)) in
  let final_run_rate := 1.0 - final_pass_rate in
  let total_matchup_epa :=
    (final_pass_rate * net_pass_epa) + (final_run_rate * net_run_epa) in
  let expected_pass_attempts := final_pass_rate * expected_plays st in
  (* Base score from EPA *)
  let base_score := (pts_per_play_base + total_matchup_epa) * expected_plays st in
  (* Success rate adjustments (weight = 55) *)
  r ← num (run_success st);
  let blended_success :=
    (final_pass_rate * pass_success st) + (final_run_rate * r) in
  let success_adjustment :=
    calculate_success_rate_adjustment blended_success default_league_avg 55 in
  let projected_score := base_score + success_adjustment in
  Ok {| score := projected_score;
        pass_rate := final_pass_rate;
        plays := expected_plays st;
        pass_attempts := expected_pass_attempts;
        matchup_epa := total_matchup_epa;
        success_rate := blended_success;
        success_adjustment := success_adjustment |}.

Definition project_team_score
    (team_stats opp_stats : gmap string value) (is_home : bool)
    (team_games_played opp_games_played : Z) (spread : Q) (qb_out : bool)
    (elite_wr_out ol_missing edge_missing : Z)
    (pts_per_play_base league_avg_pass_rate : Q) (home_strength : string)
    (pace_override opp_pace_override def_pass_rate_override : value)
    : result projection :=
  st ← project_team_score_adjust team_stats opp_stats is_home
          team_games_played opp_games_played spread qb_out
          elite_wr_out ol_missing edge_missing league_avg_pass_rate
          home_strength pace_override opp_pace_override def_pass_rate_override;
  project_team_score_combine st pts_per_play_base.

(** ** The engine on every int (lines 354-358)

    [elite_wr_out * 0.06] and [ol_missing * 0.02] convert the int to a
    float first, and Python raises [OverflowError] ("int too large to
    convert to float") for an int that rounds to [2**1024] or beyond.
    [project_team_score] above is the engine for counts that convert;
    below is the engine for every int, the conversions in their
    places: in [o_pass -= (elite_wr_out * 0.06)] the product is evaluated
    before the subtraction, so on the path without [qb_out] the
    conversion comes before the first float operation on [o_pass]. *)

(** An int that converts to a float: one that rounds to less than
    [2**1024]; [2**1024 - 2**970] is the first that does not. *)
Definition converts (n : Z) : Prop := (Z.abs n < 2 ^ 1024 - 2 ^ 970)%Z.

(** An int as a float operand. *)
Definition float_of_int (n : Z) : result Q :=
  if (Z.abs n <? 2 ^ 1024 - 2 ^ 970)%Z then Ok (inject_Z n)
  else Raise OverflowError.

Definition project_team_score_adjust_checked
    (team_stats opp_stats : gmap string value) (is_home : bool)
    (team_games_played opp_games_played : Z) (spread : Q) (qb_out : bool)
    (elite_wr_out ol_missing edge_missing : Z) (league_avg_pass_rate : Q)
    (home_strength : string)
    (pace_override opp_pace_override def_pass_rate_override : value)
    : result adjusted :=
  (* Use overrides if provided, otherwise use from stats *)
  let team_pace := resolve pace_override (get team_stats "pace" (Some 65.0)) in
  let opp_pace := resolve opp_pace_override (get opp_stats "pace" (Some 65.0)) in
  let def_pass_rate_against :=
    resolve def_pass_rate_override (get opp_stats "def_pass_rate_against" (Some 0.60)) in
  (* Safety check: ensure no zero pace *)
  let team_pace := safe_pace team_pace in
  let opp_pace := safe_pace opp_pace in
  (* Extract stats *)
  team_pass_rate ← getitem team_stats "pass_rate";
  proe ← getitem team_stats "proe";
  (* Weight EPA *)
  s ← getitem team_stats "season_pass_epa";
  l ← getitem team_stats "last5_pass_epa";
  o_pass ← weighted s l team_games_played;
  s ← getitem team_stats "season_run_epa";
  l ← getitem team_stats "last5_run_epa";
  o_run ← weighted s l team_games_played;
  s ← getitem opp_stats "def_season_pass_epa";
  l ← getitem opp_stats "def_last5_pass_epa";
  d_pass ← weighted s l opp_games_played;
  s ← getitem opp_stats "def_season_run_epa";
  l ← getitem opp_stats "def_last5_run_epa";
  d_run ← weighted s l opp_games_played;
  (* Weight success rates (team only) *)
  s ← getitem team_stats "season_pass_success";
  l ← getitem team_stats "last5_pass_success";
  pass_success ← weighted s l team_games_played;
  s ← getitem team_stats "season_run_success";
  l ← getitem team_stats "last5_run_success";
  run_success ← weighted s l team_games_played;
  (* Calculate expected pass rate: its arithmetic needs three floats *)
  team_pass_rate ← num team_pass_rate;
  proe ← num proe;
  def_pass_rate_against ← num def_pass_rate_against;
  let expected_pass_rate :=
    calculate_expected_pass_rate team_pass_rate proe def_pass_rate_against
      league_avg_pass_rate spread in
  (* Calculate expected plays *)
  let expected_plays := calculate_expected_plays team_pace opp_pace spread in
  (* Apply injury adjustments *)
  qb ←
    (if qb_out then
       o ← num o_pass;
       p ← num pass_success;
       Ok (Some (o - 0.20), expected_pass_rate - 0.07, expected_plays - 3.0,
           Some (p - 0.05))
     else
       Ok (o_pass, expected_pass_rate, expected_plays, pass_success));
  let '(o_pass, expected_pass_rate, expected_plays, pass_success) := qb in
  w ← float_of_int elite_wr_out;
  o_pass ← num o_pass;
  let o_pass := o_pass - (w * 0.06) in
  w ← float_of_int elite_wr_out;
  let expected_pass_rate := expected_pass_rate - (w * 0.02) in
  w ← float_of_int elite_wr_out;
  pass_success ← num pass_success;
  let pass_success := pass_success - (w * 0.02) in
  w ← float_of_int ol_missing;
  let o_pass := o_pass - (w * 0.02) in
  let '(expected_pass_rate, pass_success) :=
    if (ol_missing >=? 2)%Z then
      (expected_pass_rate - 0.02, pass_success - 0.03)
    else
      (expected_pass_rate, pass_success) in
  edge ←
    (if (edge_missing >=? 1)%Z then
       d ← num d_pass;
       Ok (Some (d + 0.03), o_pass + 0.03, expected_pass_rate + 0.025)
     else
       Ok (d_pass, o_pass, expected_pass_rate));
  let '(d_pass, o_pass, expected_pass_rate) := edge in
  (* Home field adjustment *)
  home ←
    (if is_home then
       h ← getitem home_adj home_strength;
       let o_pass := o_pass + h in
       h ← getitem home_adj home_strength;
       r ← num o_run;
       Ok (o_pass, r + h)
     else
       h ← getitem home_adj home_strength;
       let o_pass := o_pass - h in
       h ← getitem home_adj home_strength;
       r ← num o_run;
       Ok (o_pass, r - h));
  let '(o_pass, o_run) := home in
  Ok {| o_pass := o_pass; o_run := o_run; d_pass := d_pass; d_run := d_run;
        pass_success := pass_success; run_success := run_success;
        expected_pass_rate := expected_pass_rate;
        expected_plays := expected_plays |}.

Definition project_team_score_checked
    (team_stats opp_stats : gmap string value) (is_home : bool)
    (team_games_played opp_games_played : Z) (spread : Q) (qb_out : bool)
    (elite_wr_out ol_missing edge_missing : Z)
    (pts_per_play_base league_avg_pass_rate : Q) (home_strength : string)
    (pace_override opp_pace_override def_pass_rate_override : value)
    : result projection :=
  st ← project_team_score_adjust_checked team_stats opp_stats is_home
          team_games_played opp_games_played spread qb_out
          elite_wr_out ol_missing edge_missing league_avg_pass_rate
          home_strength pace_override opp_pace_override def_pass_rate_override;
  project_team_score_combine st pts_per_play_base.

(** ** get_game_projection: totals and betting insights (lines 557-600) *)

(** What the function prints from line 573 on, rules and headings left
    out; a formatted number is kept as the number. *)
Inductive line : Type :=
  | BaseTotal (x : Q)
  | WeatherAdjustment (x : Q)
  | FinalTotal (x : Q)
  | ProjectedTotal (x : Q)
  | HighScoring
  | LowScoring
  | HighPassVolume
  | WeatherImpact (x : Q)
  | HighSuccess
  | LowSuccess.

(** The local variables of the function that the last block reads or
    writes, and the standard output. *)
Record locals : Type := {
  team_a_proj : projection;
  team_b_proj : projection;
  weather_adjustment : Q;
  base_total : Q;
  weather_adjusted_total : Q;
  stdout : list line
}.

Definition print (l : line) (s : locals) : locals :=
  {| team_a_proj := team_a_proj s;
     team_b_proj := team_b_proj s;
     weather_adjustment := weather_adjustment s;
     base_total := base_total s;
     weather_adjusted_total := weather_adjusted_total s;
     stdout := stdout s ++ [l] |}.

(** Lines 557-558. *)
Definition totals (team_a_proj team_b_proj : projection) (weather_adjustment : Q) : locals :=
  let base_total := score team_a_proj + score team_b_proj in
  let weather_adjusted_total := base_total - weather_adjustment in
  {| team_a_proj := team_a_proj;
     team_b_proj := team_b_proj;
     weather_adjustment := weather_adjustment;
     base_total := base_total;
     weather_adjusted_total := weather_adjusted_total;
     stdout := [] |}.

(** Lines 573-580. *)
Definition print_totals (s : locals) : locals :=
  if Qgtb (weather_adjustment s) 0 then
    let s := print (BaseTotal (base_total s)) s in
    let s := print (WeatherAdjustment (weather_adjustment s)) s in
    print (FinalTotal (weather_adjusted_total s)) s
  else
    print (ProjectedTotal (weather_adjusted_total s)) s.

(** Lines 582-600. *)
Definition betting_insights (s : locals) : locals :=
  let s :=
    if Qgeb (weather_adjusted_total s) 48 then print HighScoring s
    else if Qleb (weather_adjusted_total s) 40 then print LowScoring s
    else s in
  let total_pass_attempts :=
    pass_attempts (team_a_proj s) + pass_attempts (team_b_proj s) in
  let s :=
    if Qgeb total_pass_attempts 80 then print HighPassVolume s else s in
  let s :=
    if Qgeb (weather_adjustment s) 3 then print (WeatherImpact (weather_adjustment s)) s
    else s in
  let avg_success :=
    (success_rate (team_a_proj s) + success_rate (team_b_proj s)) / 2 in
  let s :=
    if Qgeb avg_success 0.48 then print HighSuccess s
    else if Qleb avg_success 0.42 then print LowSuccess s
    else s in
  s.

(** Lines 557-600 but for the per-team display of lines 560-571, which
    prints the two projections and assigns nothing. *)
Definition get_game_projection_report
    (team_a_proj team_b_proj : projection) (weather_adjustment : Q) : locals :=
  betting_insights (print_totals (totals team_a_proj team_b_proj weather_adjustment)).

(** ** get_game_projection: from the answers to the two projections
    (lines 453-555)

    An answer that the function converts with [int] or [float] is given
    converted, [None] standing for the empty answer that selects the
    default; an answer it compares as text is given as text. *)

(** Lines 453-457: the games played by one team. *)
Definition games_played (week : Z) (answer : option Z) : Z :=
  let default_gp := Z.max 0 (Z.min 17 (week - 1)) in
  let gp := default default_gp answer in
  Z.max 0 (Z.min 17 gp).

(** The dict literal [venue_map] (line 468). *)
Definition venue_map : gmap string string :=
  {[ "1" := "weak"; "2" := "average"; "3" := "strong" ]}.

(** Lines 462-469. *)
Definition venue_strength (location venue_input : string) : string :=
  let team_a_home := String.eqb location "1" in
  let team_b_home := String.eqb location "2" in
  let venue_strength := "average" in
  if team_a_home || team_b_home then
    let venue_input := if String.eqb venue_input "" then "2" else venue_input in
    get venue_map venue_input "average"
  else
    venue_strength.

(** Lines 477-488 and 491-504: the pace, or the defensive pass rate, handed
    to the engine as an override.  The record's value is kept unless it is
    [None] or zero; [answer] is then [parse_value] of what is typed. *)
Definition from_csv_or_answer (record : gmap string value) (key : string) (answer : Q) : Q :=
  match get record key None with
  | Some x => if Qeq_bool x 0 then answer else x
  | None => answer
  end.

(** The dict literal [precip_map] (line 518). *)
Definition precip_map : gmap string string :=
  {[ "1" := "none"; "2" := "light_rain"; "3" := "heavy_rain";
     "4" := "light_snow"; "5" := "blizzard" ]}.

(** Lines 508-521. *)
Definition cli_weather_adjustment
    (is_dome : bool) (wind_answer temp_answer : option Q) (precip_input : string) : Q :=
  let '(wind_mph, temp_f, precipitation) :=
    if negb is_dome then
      let precip_input := if String.eqb precip_input "" then "1" else precip_input in
      (default 0 wind_answer, default 70 temp_answer,
       get precip_map precip_input "none")
    else
      (0, 70, "none") in
  calculate_weather_adjustment wind_mph temp_f precipitation.

(** Lines 537-555: the two calls, team B's with the roles swapped and the
    spread negated. *)
Definition project_both
    (teams : gmap string (gmap string value)) (team_a_name team_b_name : string)
    (location venue_input : string) (gp_a gp_b : Z) (spread : Q)
    (a_qb_out : bool) (a_wr_out a_ol_out b_edge_out : Z)
    (b_qb_out : bool) (b_wr_out b_ol_out a_edge_out : Z)
    (a_pace b_pace a_def_pass_rate b_def_pass_rate : Q)
    : result (projection * projection) :=
  let team_a_home := String.eqb location "1" in
  let team_b_home := String.eqb location "2" in
  let venue_strength := venue_strength location venue_input in
  team_a ← getitem teams team_a_name;
  team_b ← getitem teams team_b_name;
  team_a_proj ← project_team_score team_a team_b team_a_home gp_a gp_b
                  spread a_qb_out a_wr_out a_ol_out b_edge_out
                  0.365 0.60 venue_strength
                  (Some a_pace) (Some b_pace) (Some b_def_pass_rate);
  team_b_proj ← project_team_score team_b team_a team_b_home gp_b gp_a
                  (- spread) b_qb_out b_wr_out b_ol_out a_edge_out
                  0.365 0.60 venue_strength
                  (Some b_pace) (Some a_pace) (Some a_def_pass_rate);
  Ok (team_a_proj, team_b_proj).

(** The two calls on every int. *)
Definition project_both_checked
    (teams : gmap string (gmap string value)) (team_a_name team_b_name : string)
    (location venue_input : string) (gp_a gp_b : Z) (spread : Q)
    (a_qb_out : bool) (a_wr_out a_ol_out b_edge_out : Z)
    (b_qb_out : bool) (b_wr_out b_ol_out a_edge_out : Z)
    (a_pace b_pace a_def_pass_rate b_def_pass_rate : Q)
    : result (projection * projection) :=
  let team_a_home := String.eqb location "1" in
  let team_b_home := String.eqb location "2" in
  let venue_strength := venue_strength location venue_input in
  team_a ← getitem teams team_a_name;
  team_b ← getitem teams team_b_name;
  team_a_proj ← project_team_score_checked team_a team_b team_a_home gp_a gp_b
                  spread a_qb_out a_wr_out a_ol_out b_edge_out
                  0.365 0.60 venue_strength
                  (Some a_pace) (Some b_pace) (Some b_def_pass_rate);
  team_b_proj ← project_team_score_checked team_b team_a team_b_home gp_b gp_a
                  (- spread) b_qb_out b_wr_out b_ol_out a_edge_out
                  0.365 0.60 venue_strength
                  (Some b_pace) (Some a_pace) (Some a_def_pass_rate);
  Ok (team_a_proj, team_b_proj).

(** ** Sample tables

    Two teams in the tendencies table, one of them with an empty row, and
    a statistics table that lists only the first. *)
Definition sample_tendencies : option (gmap string (gmap string Q)) :=
  Some {[ "KC" := {[ "pass_rate" := 0.62; "pace" := 66.0 ]}; "BUF" := ∅ ]}.

Definition sample_stats : option (gmap string (gmap string Q)) :=
  Some {[ "KC" := {[ "dropback_epa" := 0.15; "rush_sr" := 0.41 ]} ]}.

(** ** parse_value and the two loaders (model.py, lines 96-238)

    Three builtins are parameters: [str.strip], [str.lower], and [float]
    on a string, whose [ValueError] is [None].  A string that [float]
    reads as an infinity or a NaN has no rational value and is outside the
    model.  A row is a row of [csv.DictReader]: a dict from column names
    to cells, a cell being a string or, in a short row, [None]. *)

(** What [parse_value] is given: [None], an int or float, or a string. *)
Inductive raw : Type :=
  | RNone
  | RNum (x : Q)
  | RStr (s : string).

(** ['%' in value]. *)
Fixpoint contains_percent (s : string) : bool :=
  match s with
  | EmptyString => false
  | String c rest => Ascii.eqb c "%"%char || contains_percent rest
  end.

(** [value.replace('%', '')]. *)
Fixpoint remove_percent (s : string) : string :=
  match s with
  | EmptyString => EmptyString
  | String c rest =>
      if Ascii.eqb c "%"%char then remove_percent rest
      else String c (remove_percent rest)
  end.

(** The list literal of line 112. *)
Definition sentinels : list string := ["na"; "n/a"; "-"; "none"].

(** The dict literal [team_aliases] (lines 186-190). *)
Definition team_aliases : gmap string string :=
  {[ "LA" := "LAR"; "WSH" := "WAS" ]}.

(** A cell as a value: the cell itself. *)
Definition cell (c : option string) : raw :=
  match c with
  | Some s => RStr s
  | None => RNone
  end.

(** Truth value of a cell: [None] and the empty string are false. *)
Definition cell_truthy (c : option string) : bool :=
  match c with
  | Some s => negb (String.eqb s "")
  | None => false
  end.

(** [a or b] on cells. *)
Definition cell_or (a b : option string) : option string :=
  if cell_truthy a then a else b.

(** [row.get(key)] and [row.get(key, dflt)]. *)
Definition row_get (row : gmap string (option string)) (key : string) : option string :=
  get row key None.

Definition row_get_or (row : gmap string (option string)) (key : string) (dflt : raw) : raw :=
  match row !! key with
  | Some c => cell c
  | None => dflt
  end.

Section Loading.

Variable str_strip : string -> string.
Variable str_lower : string -> string.
Variable py_float : string -> option Q.

Definition parse_value (value : raw) (is_percentage : bool) : Q :=
  match value with
  | RNone => 0.0
  | RNum x =>
      (* If already a float/int, return it *)
      x
  | RStr s =>
      if String.eqb s "" then 0.0
      else
        (* Convert string *)
        let value := str_strip s in
        (* Handle empty strings *)
        if String.eqb value "" || existsb (String.eqb (str_lower value)) sentinels
        then 0.0
        else if contains_percent value then
          (* Remove percentage sign if present *)
          let value := str_strip (remove_percent value) in
          match py_float value with
          | Some x => x / 100.0
          | None => 0.0
          end
        else
          (* Try to convert to float *)
          match py_float value with
          | Some result =>
              if is_percentage && Qgtb result 1.0 then result / 100.0
              else result
          | None => 0.0
          end
  end.

(** A string that [parse_value] reads as text: neither blank nor one of
    the sentinels. *)
Definition proper_text (s : string) : Prop :=
  s <> "" /\ str_strip s <> "" /\ ~ In (str_lower (str_strip s)) sentinels.

(** The search for the team name, shared by the two loaders (lines
    151-155 and 197-201). *)
Fixpoint find_team (row : gmap string (option string)) (cols : list string)
    : option string :=
  match cols with
  | [] => None
  | col :: cols =>
      match row !! col with
      | Some (Some s) =>
          if negb (String.eqb s "") then Some (str_strip s)
          else find_team row cols
      | _ => find_team row cols
      end
  end.

Definition team_columns : list string := ["Team"; "team"; "Abbr"; "abbr"].

(** Lines 149-166: one row of the tendencies file. *)
Definition tendencies_row
    (tendencies : gmap string (gmap string Q)) (row : gmap string (option string))
    : gmap string (gmap string Q) :=
  let team := find_team row team_columns in
  match team with
  | Some team =>
      if negb (String.eqb team "") then
        <[team :=
            {[ "pass_rate" :=
                 parse_value
                   (row_get_or row "Pass Rate" (row_get_or row "pass_rate" (RNum 0)))
                   true;
               "proe" :=
                 parse_value
                   (row_get_or row "PROE" (row_get_or row "proe" (RNum 0))) true;
               "pace" :=
                 parse_value
                   (row_get_or row "Pace" (row_get_or row "pace" (RNum 0))) false;
               "def_pass_rate_against" :=
                 parse_value
                   (row_get_or row "Opp Pass Rate"
                      (row_get_or row "opp_pass_rate"
                         (row_get_or row "Def Pass Rate Against" (RNum 0))))
                   true ]}]> tendencies
      else tendencies
  | None => tendencies
  end.

(** [load_team_tendencies]; [file] is [None] when the file does not
    exist, and the rows read from it otherwise. *)
Definition load_team_tendencies (file : option (list (gmap string (option string))))
    : option (gmap string (gmap string Q)) :=
  match file with
  | None => None
  | Some rows => Some (fold_left tendencies_row rows ∅)
  end.

(** Lines 195-232: one row of a statistics file. *)
Definition rbsdm_row
    (stats : gmap string (gmap string Q)) (row : gmap string (option string))
    : gmap string (gmap string Q) :=
  let team := find_team row team_columns in
  (* Apply alias if one exists *)
  let team :=
    match team with
    | Some t =>
        match team_aliases !! t with
        | Some alias => Some alias
        | None => team
        end
    | None => None
    end in
  match team with
  | Some team =>
      if negb (String.eqb team "") && negb (String.eqb team "Team") then
        let dropback_epa :=
          parse_value
            (cell (cell_or (row_get row "Dropback EPA")
                     (cell_or (row_get row "dropback_epa")
                        (cell_or (row_get row "Dropback") (row_get row "dropback")))))
            false in
        let dropback_sr :=
          parse_value
            (cell (cell_or (row_get row "Dropback SR")
                     (cell_or (row_get row "dropback_sr")
                        (cell_or (row_get row "Success R Dropback")
                           (row_get row "Dropback Success Rate")))))
            true in
        let rush_epa :=
          parse_value
            (cell (cell_or (row_get row "Rush EPA")
                     (cell_or (row_get row "rush_epa")
                        (cell_or (row_get row "Rush") (row_get row "rush")))))
            false in
        let rush_sr :=
          parse_value
            (cell (cell_or (row_get row "Rush SR")
                     (cell_or (row_get row "rush_sr")
                        (row_get row "Rush Success Rate"))))
            true in
        <[team :=
            {[ "dropback_epa" := dropback_epa; "dropback_sr" := dropback_sr;
               "rush_epa" := rush_epa; "rush_sr" := rush_sr ]}]> stats
      else stats
  | None => stats
  end.

Definition load_rbsdm_stats (file : option (list (gmap string (option string))))
    : option (gmap string (gmap string Q)) :=
  match file with
  | None => None
  | Some rows => Some (fold_left rbsdm_row rows ∅)
  end.

(** Lines 416-423 of [get_game_projection]: the five files loaded and
    merged. *)
Definition load_teams
    (pass oszn ol5 dszn dl5 : option (list (gmap string (option string))))
    : option (gmap string (gmap string value)) :=
  let tendencies := load_team_tendencies pass in
  let off_season := load_rbsdm_stats oszn in
  let off_l5 := load_rbsdm_stats ol5 in
  let def_season := load_rbsdm_stats dszn in
  let def_l5 := load_rbsdm_stats dl5 in
  merge_team_data tendencies off_season off_l5 def_season def_l5.

End Loading.

(** What holds of every entry of a statistics table. *)
Definition stats_entry_ok (team : string) (r : gmap string Q) : Prop :=
  team <> "" /\ team <> "Team" /\ team <> "LA" /\ team <> "WSH" /\
  is_Some (r !! "dropback_epa") /\ is_Some (r !! "dropback_sr") /\
  is_Some (r !! "rush_epa") /\ is_Some (r !! "rush_sr").

(** What holds of every entry of the tendencies table. *)
Definition tendencies_entry_ok (team : string) (r : gmap string Q) : Prop :=
  team <> "" /\
  is_Some (r !! "pass_rate") /\ is_Some (r !! "proe") /\
  is_Some (r !! "pace") /\ is_Some (r !! "def_pass_rate_against").

(** Stand-ins for the three builtins on sample cells: text with no
    surrounding white space and no capitals, and the numbers "62", "48"
    and "0.48". *)
Definition sample_strip (s : string) : string := s.
Definition sample_lower (s : string) : string := s.
Definition sample_float (s : string) : option Q :=
  if String.eqb s "62" then Some 62
  else if String.eqb s "48" then Some 48
  else if String.eqb s "0.48" then Some 0.48
  else None.

(** A statistics file and a tendencies file with one row each, for the
    team the first files as "LA". *)
Definition sample_stats_file : option (list (gmap string (option string))) :=
  Some [ {[ "Team" := Some "LA"; "Dropback EPA" := Some "0.48";
            "Rush SR" := Some "48" ]} ].

Definition sample_tendencies_file : option (list (gmap string (option string))) :=
  Some [ {[ "Abbr" := Some "LA"; "Pass Rate" := Some "62" ]} ].

(** ** Specification-side definitions *)

(** From the specification (section 4.7): the three components of the
    weather penalty, each a function of one input. *)
Definition spec_wind_penalty (wind_mph : Q) : Q :=
  if Qle_bool 20 wind_mph then 6
  else if Qle_bool 15 wind_mph then 3
  else if Qle_bool 10 wind_mph then 1
  else 0.

Definition spec_temperature_penalty (temp_f : Q) : Q :=
  if Qle_bool 0 temp_f then 0 else 2.

Definition spec_precipitation_penalty (precipitation : string) : Q :=
  if String.eqb precipitation "heavy_rain" then 3
  else if String.eqb precipitation "light_snow" then 2
  else if String.eqb precipitation "heavy_snow" then 4
  else if String.eqb precipitation "blizzard" then 8
  else 0.

(** From the specification (section 3): a record holding every field at
    its documented league-average default. *)
Definition league_average : gmap string value :=
  list_to_map [
    ("pass_rate", Some 0.60); ("proe", Some 0.0); ("pace", Some 65.0);
    ("def_pass_rate_against", Some 0.60);
    ("season_pass_epa", Some 0.0); ("last5_pass_epa", Some 0.0);
    ("season_run_epa", Some 0.0); ("last5_run_epa", Some 0.0);
    ("season_pass_success", Some 0.46); ("last5_pass_success", Some 0.46);
    ("season_run_success", Some 0.43); ("last5_run_success", Some 0.43);
    ("def_season_pass_epa", Some 0.0); ("def_last5_pass_epa", Some 0.0);
    ("def_season_run_epa", Some 0.0); ("def_last5_run_epa", Some 0.0)
  ].

(** The keys [project_team_score] subscripts, in the order it reads them:
    ten of the team's record, then (after the first six) four of the
    opponent's. *)
Definition team_keys : list string :=
  ["pass_rate"; "proe"; "season_pass_epa"; "last5_pass_epa";
   "season_run_epa"; "last5_run_epa"; "season_pass_success";
   "last5_pass_success"; "season_run_success"; "last5_run_success"].

Definition opp_keys : list string :=
  ["def_season_pass_epa"; "def_last5_pass_epa";
   "def_season_run_epa"; "def_last5_run_epa"].

(** The keys of [home_adj]. *)
Definition known_strength (hs : string) : Prop :=
  hs = "weak" \/ hs = "average" \/ hs = "strong".

(** Every key of [keys] is present in [d] and holds a float. *)
Definition floats_at (d : gmap string value) (keys : list string) : Prop :=
  Forall (fun k => exists q : Q, d !! k = Some (Some q)) keys.

(** * Properties *)

(** ** Comparisons *)

Lemma Qle_bool_false (x y : Q) : Qle_bool x y = false <-> y < x.
Proof.
  split; intros H.
  - apply Qnot_le_lt. intros Hle. apply Qle_bool_iff in Hle. congruence.
  - destruct (Qle_bool x y) eqn:E; [|reflexivity].
    apply Qle_bool_iff in E. lra.
Qed.

Lemma Qgeb_true x y : Qgeb x y = true <-> y <= x.
Proof. apply Qle_bool_iff. Qed.

Lemma Qleb_true x y : Qleb x y = true <-> x <= y.
Proof. apply Qle_bool_iff. Qed.

Lemma Qltb_true x y : Qltb x y = true <-> x < y.
Proof. unfold Qltb. rewrite negb_true_iff. apply Qle_bool_false. Qed.

Lemma Qgtb_true x y : Qgtb x y = true <-> y < x.
Proof. unfold Qgtb. rewrite negb_true_iff. apply Qle_bool_false. Qed.

(** Case analysis on every float comparison in sight, leaving the
    orderings as hypotheses for [lra]. *)
Ltac qcases :=
  unfold Qleb, Qgeb, Qltb, Qgtb in *;
  repeat match goal with
    | |- context [Qle_bool ?x ?y] =>
        let E := fresh "E" in
        destruct (Qle_bool x y) eqn:E;
        [apply Qle_bool_iff in E | apply Qle_bool_false in E]
    end;
  cbn [negb] in *.

(** ** Recency-weighted blend *)

(** C2. The blend returns the season value unchanged for [g <= 5],
    [0.65 s + 0.35 r] for [6 <= g <= 10], [0.50 s + 0.50 r] for
    [11 <= g <= 14] and [0.40 s + 0.60 r] for [g >= 15]; the four buckets
    cover every count and no two of them meet, so the steps at 5/6, 10/11
    and 14/15 are hard and the value is determined everywhere. *)
Theorem weighted_epa_buckets (s r : Q) (g : Z) :
  ((g <= 5)%Z -> calculate_weighted_epa s r g = s) /\
  ((6 <= g <= 10)%Z -> calculate_weighted_epa s r g == 0.65 * s + 0.35 * r) /\
  ((11 <= g <= 14)%Z -> calculate_weighted_epa s r g == 0.50 * s + 0.50 * r) /\
  ((15 <= g)%Z -> calculate_weighted_epa s r g == 0.40 * s + 0.60 * r) /\
  ((g <= 5)%Z \/ (6 <= g <= 10)%Z \/ (11 <= g <= 14)%Z \/ (15 <= g)%Z) /\
  (~ ((g <= 5)%Z /\ (6 <= g)%Z)) /\
  (~ ((g <= 10)%Z /\ (11 <= g)%Z)) /\
  (~ ((g <= 14)%Z /\ (15 <= g)%Z)).
Proof.
  unfold calculate_weighted_epa.
  repeat split; try lia; intros H;
    repeat match goal with
      | |- context [(?a <=? ?b)%Z] => destruct (Z.leb_spec a b); try lia
      end; try reflexivity; ring.
Qed.

Lemma weighted_epa_buckets_witness :
  calculate_weighted_epa 0.10 0.50 3 = 0.10 /\
  calculate_weighted_epa 0.10 0.50 6 == 0.65 * 0.10 + 0.35 * 0.50 /\
  calculate_weighted_epa 0.10 0.50 11 == 0.50 * 0.10 + 0.50 * 0.50 /\
  calculate_weighted_epa 0.10 0.50 15 == 0.40 * 0.10 + 0.60 * 0.50.
Proof.
  split; [apply (weighted_epa_buckets 0.10 0.50 3); lia|].
  split; [apply (weighted_epa_buckets 0.10 0.50 6); lia|].
  split; [apply (weighted_epa_buckets 0.10 0.50 11); lia|].
  apply (weighted_epa_buckets 0.10 0.50 15); lia.
Defined.

(** ** Net efficiency combiner *)

Lemma calculate_net_epa_scale (k o d : Q) :
  calculate_net_epa (k * o) (k * d) == k * calculate_net_epa o d.
Proof. unfold calculate_net_epa. field. Qed.

Lemma calculate_net_epa_lowest_terms (o d : Q) :
  calculate_net_epa o d == (8 * o + 5 * d) / 13.
Proof. unfold calculate_net_epa. field. Qed.

(** *** Doubling in binary64

    Doubling a float adds one to its exponent.  Away from overflow and
    underflow each rounded operation of the combiner commutes with it:
    the digits it computes do not depend on the exponent. *)

Section Binary64.

Local Open Scope Z_scope.


Lemma fexp_unclamped (d e : Z) :
  0 <= d -> -1021 <= e -> fexp prec emax (d + e) = d + e - 53.
Proof. intros. unfold fexp, SpecFloat.emin, prec, emax. lia. Qed.

Lemma Zdigits2_nonneg (m : Z) : 0 <= Zdigits2 m.
Proof. destruct m; simpl; lia. Qed.

Lemma shr_exponent (mrs : shr_record) (e n : Z) :
  snd (shr mrs (e + 1) n) = snd (shr mrs e n) + 1 /\
  fst (shr mrs (e + 1) n) = fst (shr mrs e n) /\
  e <= snd (shr mrs e n).
Proof. destruct n; simpl; repeat split; lia. Qed.

Lemma shr_fexp_double (m e : Z) (l : location) :
  -1021 <= e ->
  shr_fexp prec emax m (e + 1) l
  = (fst (shr_fexp prec emax m e l), snd (shr_fexp prec emax m e l) + 1) /\
  e <= snd (shr_fexp prec emax m e l).
Proof.
  intros He. unfold shr_fexp.
  rewrite !fexp_unclamped by (try apply Zdigits2_nonneg; lia).
  replace (Zdigits2 m + (e + 1) - 53 - (e + 1)) with (Zdigits2 m + e - 53 - e) by lia.
  destruct (shr_exponent (shr_record_of_loc m l) e (Zdigits2 m + e - 53 - e))
    as (H1 & H2 & H3).
  split; [|exact H3].
  rewrite (surjective_pairing (shr _ (e + 1) _)). rewrite H1, H2. reflexivity.
Qed.

Lemma binary_round_aux_double (s : bool) (m e : Z) (l : location) :
  -1021 <= e ->
  binary_round_aux prec emax s m (e + 1) l
  = sf_double (binary_round_aux prec emax s m e l).
Proof.
  intros He. unfold binary_round_aux.
  destruct (shr_fexp_double m e l He) as [E1 L1]. rewrite E1.
  destruct (shr_fexp prec emax m e l) as [mrs' e'] eqn:E. cbn [fst snd] in *.
  set (m2 := round_nearest_even (shr_m mrs') (loc_of_shr_record mrs')).
  destruct (shr_fexp_double m2 e' loc_Exact ltac:(lia)) as [E2 L2]. rewrite E2.
  destruct (shr_fexp prec emax m2 e' loc_Exact) as [mrs'' e''] eqn:E'.
  cbn [fst snd] in *.
  destruct (shr_m mrs'') as [|p|p]; try reflexivity.
  unfold sf_double.
  destruct (e'' <=? emax - prec) eqn:C.
  - reflexivity.
  - replace (e'' + 1 <=? emax - prec) with false; [reflexivity|].
    symmetry. apply Z.leb_gt. apply Z.leb_gt in C. lia.
Qed.

Lemma SFmul_double (s : bool) (m : positive) (e : Z) (sc : bool) (mc : positive) (ec : Z) :
  -1021 <= e + ec ->
  SF64mul (S754_finite s m (e + 1)) (S754_finite sc mc ec)
  = sf_double (SF64mul (S754_finite s m e) (S754_finite sc mc ec)).
Proof.
  intros H. unfold SF64mul, SFmul.
  replace (e + 1 + ec) with (e + ec + 1) by lia.
  apply binary_round_aux_double. exact H.
Qed.

Lemma shl_align_double (m : positive) (e e' : Z) :
  shl_align m (e + 1) (e' + 1)
  = (fst (shl_align m e e'), snd (shl_align m e e') + 1).
Proof.
  unfold shl_align. replace (e' + 1 - (e + 1)) with (e' - e) by lia.
  destruct (e' - e); reflexivity.
Qed.

Lemma shl_align_exponent (m : positive) (e e' : Z) :
  Z.min e e' <= snd (shl_align m e e').
Proof. unfold shl_align. destruct (e' - e) eqn:E; cbn [snd]; lia. Qed.

Lemma binary_round_double (s : bool) (m : positive) (e : Z) :
  -968 <= e ->
  binary_round prec emax s m (e + 1) = sf_double (binary_round prec emax s m e).
Proof.
  intros He. unfold binary_round.
  rewrite !fexp_unclamped by lia.
  replace (Z.pos (digits2_pos m) + (e + 1) - 53)
    with (Z.pos (digits2_pos m) + e - 53 + 1) by lia.
  rewrite shl_align_double.
  pose proof (shl_align_exponent m e (Z.pos (digits2_pos m) + e - 53)) as Hl.
  destruct (shl_align m e (Z.pos (digits2_pos m) + e - 53)) as [mz ez].
  cbn [fst snd] in *.
  apply binary_round_aux_double. lia.
Qed.

Lemma binary_normalize_double (m e : Z) :
  -968 <= e ->
  binary_normalize prec emax m (e + 1) false
  = sf_double (binary_normalize prec emax m e false).
Proof.
  intros He. destruct m; cbn [binary_normalize];
    [reflexivity | apply binary_round_double; exact He
                 | apply binary_round_double; exact He].
Qed.

Lemma SFadd_double (a b : spec_float) :
  fits (-968) 970 a -> fits (-968) 970 b ->
  SF64add (sf_double a) (sf_double b) = sf_double (SF64add a b).
Proof.
  destruct a as [sa| | |sa ma ea], b as [sb| | |sb mb eb]; cbn [fits];
    try contradiction; intros Ha Hb.
  - destruct sa, sb; reflexivity.
  - unfold SF64add, SFadd, sf_double. destruct (eb + 1 <=? emax - prec); reflexivity.
  - unfold SF64add, SFadd, sf_double. destruct (ea + 1 <=? emax - prec); reflexivity.
  - cbn [sf_double].
    replace (ea + 1 <=? emax - prec) with true
      by (symmetry; apply Z.leb_le; unfold emax, prec; lia).
    replace (eb + 1 <=? emax - prec) with true
      by (symmetry; apply Z.leb_le; unfold emax, prec; lia).
    unfold SF64add, SFadd.
    replace (Z.min (ea + 1) (eb + 1)) with (Z.min ea eb + 1) by lia.
    rewrite !shl_align_double. cbn [fst].
    apply binary_normalize_double. lia.
Qed.

Lemma fexp_succ (x : Z) : -1021 <= x -> fexp prec emax (x + 1) = fexp prec emax x + 1.
Proof. intros. unfold fexp, SpecFloat.emin, prec, emax. lia. Qed.

Lemma SFdiv_double (s : bool) (m : positive) (e : Z) (sc : bool) (mc : positive) (ec : Z) :
  -900 <= e -> Z.pos (digits2_pos mc) + ec <= 60 -> ec <= 60 ->
  SF64div (S754_finite s m (e + 1)) (S754_finite sc mc ec)
  = sf_double (SF64div (S754_finite s m e) (S754_finite sc mc ec)).
Proof.
  intros He Hd Hc. unfold SF64div, SFdiv, SFdiv_core_binary.
  cbn [Zdigits2].
  replace (Z.pos (digits2_pos m) + (e + 1) - (Z.pos (digits2_pos mc) + ec))
    with (Z.pos (digits2_pos m) + e - (Z.pos (digits2_pos mc) + ec) + 1) by lia.
  rewrite fexp_succ by lia.
  set (X := Z.pos (digits2_pos m) + e - (Z.pos (digits2_pos mc) + ec)).
  replace (Z.min (fexp prec emax X + 1) (e + 1 - ec))
    with (Z.min (fexp prec emax X) (e - ec) + 1) by lia.
  assert (HX : -1021 <= Z.min (fexp prec emax X) (e - ec)).
  { unfold fexp, SpecFloat.emin, prec, emax. subst X. lia. }
  set (e' := Z.min (fexp prec emax X) (e - ec)) in *.
  replace (e + 1 - ec - (e' + 1)) with (e - ec - e') by lia.
  destruct (Z.div_eucl _ _) as [q r].
  apply binary_round_aux_double. exact HX.
Qed.

Lemma digits2_pos_size (p : positive) : digits2_pos p = Pos.size p.
Proof. induction p; simpl; congruence. Qed.

Lemma Zdigits2_log2 (p : positive) : Z.pos (digits2_pos p) = Z.log2 (Z.pos p) + 1.
Proof. destruct p; simpl; rewrite ?digits2_pos_size; lia. Qed.

Lemma Zdigits2_le (m k : Z) : 0 <= m < 2 ^ k -> 0 <= k -> Zdigits2 m <= k.
Proof.
  intros [H0 Hk] K. destruct m as [|p|p]; [simpl; lia| |lia].
  cbn [Zdigits2]. rewrite Zdigits2_log2.
  apply Z.log2_lt_pow2 in Hk; lia.
Qed.

Lemma Zdigits2_gt (m : Z) : 0 <= m -> m < 2 ^ Zdigits2 m.
Proof.
  intros H0. destruct m as [|p|p]; [simpl; lia| |lia].
  cbn [Zdigits2]. rewrite Zdigits2_log2.
  apply Z.log2_spec. lia.
Qed.

Lemma iter_pos_iter {A : Type} (f : A -> A) (p : positive) (x : A) :
  SpecFloat.iter_pos f p x = Pos.iter f x p.
Proof.
  revert x. induction p as [p IH|p IH|]; intros x; cbn [SpecFloat.iter_pos Pos.iter].
  - rewrite !IH. rewrite <- !Pos.iter_swap. reflexivity.
  - rewrite !IH. reflexivity.
  - reflexivity.
Qed.

Lemma shr_1_div2 (mrs : shr_record) :
  0 <= shr_m mrs ->
  shr_m (shr_1 mrs) = Z.div2 (shr_m mrs) /\ 0 <= shr_m (shr_1 mrs).
Proof.
  destruct mrs as [m r s]. cbn [shr_m]. intros H.
  destruct m as [|[p|p|]|p]; cbn; try lia; split; try reflexivity; lia.
Qed.

Lemma shr_iter_shiftr (p : positive) (mrs : shr_record) :
  0 <= shr_m mrs ->
  shr_m (SpecFloat.iter_pos shr_1 p mrs) = Z.shiftr (shr_m mrs) (Z.pos p) /\
  0 <= shr_m (SpecFloat.iter_pos shr_1 p mrs).
Proof.
  intros H. rewrite iter_pos_iter.
  change (Z.shiftr (shr_m mrs) (Z.pos p)) with (Pos.iter Z.div2 (shr_m mrs) p).
  induction p as [|p IH] using Pos.peano_ind.
  - cbn [Pos.iter]. apply shr_1_div2. exact H.
  - rewrite !Pos.iter_succ. destruct IH as [IH1 IH2].
    destruct (shr_1_div2 (Pos.iter shr_1 mrs p) IH2) as [E1 E2].
    rewrite E1, IH1. split; [reflexivity|]. rewrite <- IH1, <- E1. exact E2.
Qed.

Lemma shr_record_of_loc_m (m : Z) (l : location) : shr_m (shr_record_of_loc m l) = m.
Proof. destruct l as [|[]]; reflexivity. Qed.

(** After the shift to the target exponent at most 53 digits are left. *)
Lemma shr_fexp_bounds (m e : Z) (l : location) :
  0 <= m -> -1021 <= e ->
  0 <= shr_m (fst (shr_fexp prec emax m e l)) < 2 ^ 53 /\
  snd (shr_fexp prec emax m e l) = e + Z.max 0 (Zdigits2 m - 53).
Proof.
  intros H0 He. unfold shr_fexp.
  rewrite fexp_unclamped by (try apply Zdigits2_nonneg; lia).
  pose proof (Zdigits2_gt m H0) as Hd.
  pose proof (Zdigits2_nonneg m) as Hn.
  replace (Zdigits2 m + e - 53 - e) with (Zdigits2 m - 53) by lia.
  destruct (Zdigits2 m - 53) as [|p|p] eqn:E; cbn [shr fst snd].
  - rewrite shr_record_of_loc_m. replace (Zdigits2 m) with 53 in Hd by lia. lia.
  - destruct (shr_iter_shiftr p (shr_record_of_loc m l)) as [E1 E2];
      [rewrite shr_record_of_loc_m; exact H0|].
    rewrite E1, shr_record_of_loc_m. rewrite Z.shiftr_div_pow2 by lia.
    split; [|lia]. split; [apply Z.div_pos; lia|].
    apply Z.div_lt_upper_bound; [lia|].
    rewrite <- Z.pow_add_r by lia.
    replace (Z.pos p + 53) with (Zdigits2 m) by lia. exact Hd.
  - rewrite shr_record_of_loc_m. split; [|lia]. split; [exact H0|].
    eapply Z.lt_le_trans; [exact Hd|]. apply Z.pow_le_mono_r; lia.
Qed.

Lemma round_nearest_even_bounds (m : Z) (l : location) :
  m <= round_nearest_even m l <= m + 1.
Proof. destruct l as [|[]]; cbn; try destruct (Z.even m); lia. Qed.

Lemma fits_weaken (lo hi lo' hi' : Z) (x : spec_float) :
  lo' <= lo -> hi <= hi' -> fits lo hi x -> fits lo' hi' x.
Proof. destruct x; cbn; intros; try tauto; lia. Qed.

Lemma binary_round_aux_fits (s : bool) (m e : Z) (l : location) :
  0 <= m -> -1021 <= e -> e + Z.max 0 (Zdigits2 m - 53) + 1 <= 971 ->
  fits e (e + Z.max 0 (Zdigits2 m - 53) + 1) (binary_round_aux prec emax s m e l).
Proof.
  intros H0 He Hu. unfold binary_round_aux.
  destruct (shr_fexp_bounds m e l H0 He) as [B1 E1].
  destruct (shr_fexp prec emax m e l) as [mrs' e']. cbn [fst snd] in *.
  pose proof (round_nearest_even_bounds (shr_m mrs') (loc_of_shr_record mrs')) as R.
  set (m2 := round_nearest_even (shr_m mrs') (loc_of_shr_record mrs')) in *.
  assert (H2 : 0 <= m2) by lia.
  destruct (shr_fexp_bounds m2 e' loc_Exact H2 ltac:(lia)) as [B2 E2].
  assert (D2 : Zdigits2 m2 <= 54) by (apply Zdigits2_le; lia).
  destruct (shr_fexp prec emax m2 e' loc_Exact) as [mrs'' e'']. cbn [fst snd] in *.
  destruct (shr_m mrs'') as [|p|p]; cbn [fits]; [exact I| |lia].
  replace (e'' <=? emax - prec) with true
    by (symmetry; apply Z.leb_le; unfold emax, prec; lia).
  cbn [fits]. lia.
Qed.

Lemma SFmul_fits (lo hi : Z) (x : spec_float) (sc : bool) (mc : positive) (ec : Z) :
  fits lo hi x -> Z.pos mc < 2 ^ 53 -> -1021 <= lo + ec -> hi + ec + 54 <= 971 ->
  fits (lo + ec) (hi + ec + 54) (SF64mul x (S754_finite sc mc ec)).
Proof.
  destruct x as [s| | |s m e]; cbn [fits]; try contradiction; intros Hx Hc Hl Hh.
  - exact I.
  - unfold SF64mul, SFmul.
    assert (D : Zdigits2 (Z.pos (m * mc)) <= 106).
    { apply Zdigits2_le; [|lia]. split; [lia|].
      rewrite Pos2Z.inj_mul. change (2 ^ 106) with (2 ^ 53 * 2 ^ 53). nia. }
    eapply fits_weaken; [| |apply binary_round_aux_fits]; lia.
Qed.

Lemma digits2_pos_iter_xO (p k : positive) :
  Z.pos (digits2_pos (Pos.iter xO p k)) = Z.pos (digits2_pos p) + Z.pos k.
Proof.
  induction k as [|k IH] using Pos.peano_ind.
  - cbn. lia.
  - rewrite Pos.iter_succ. cbn [digits2_pos]. lia.
Qed.

Lemma shl_align_digits (m : positive) (e e' : Z) :
  e' <= e ->
  Z.pos (digits2_pos (fst (shl_align m e e'))) = Z.pos (digits2_pos m) + (e - e').
Proof.
  intros H. unfold shl_align. destruct (e' - e) as [|p|p] eqn:E; cbn [fst].
  - lia.
  - lia.
  - rewrite digits2_pos_iter_xO. lia.
Qed.

Lemma binary_round_fits (s : bool) (m : positive) (e : Z) :
  -968 <= e -> e + Z.max 0 (Z.pos (digits2_pos m) - 53) + 1 <= 971 ->
  fits (e - 52) (e + Z.max 0 (Z.pos (digits2_pos m) - 53) + 1)
    (binary_round prec emax s m e).
Proof.
  intros He Hu. unfold binary_round.
  rewrite fexp_unclamped by lia.
  destruct (Z_le_gt_dec 53 (Z.pos (digits2_pos m))) as [D|D].
  - assert (E : shl_align m e (Z.pos (digits2_pos m) + e - 53) = (m, e)).
    { unfold shl_align.
      destruct (Z.pos (digits2_pos m) + e - 53 - e) eqn:E; try reflexivity. lia. }
    rewrite E.
    eapply fits_weaken; [| |apply binary_round_aux_fits]; cbn [Zdigits2]; lia.
  - pose proof (shl_align_digits m e (Z.pos (digits2_pos m) + e - 53) ltac:(lia)) as Hd.
    assert (E : snd (shl_align m e (Z.pos (digits2_pos m) + e - 53))
                = Z.pos (digits2_pos m) + e - 53).
    { unfold shl_align.
      destruct (Z.pos (digits2_pos m) + e - 53 - e) eqn:E; cbn [snd]; lia. }
    destruct (shl_align m e (Z.pos (digits2_pos m) + e - 53)) as [mz ez].
    cbn [fst snd] in *. subst ez.
    eapply fits_weaken; [| |apply binary_round_aux_fits]; cbn [Zdigits2]; lia.
Qed.

Lemma shl_align_value (m : positive) (e e' : Z) :
  e' <= e -> Z.pos m < 2 ^ 53 ->
  Z.pos (fst (shl_align m e e')) < 2 ^ (53 + (e - e')).
Proof.
  intros H Hm.
  pose proof (shl_align_digits m e e' H) as Hd.
  pose proof (Zdigits2_gt (Z.pos (fst (shl_align m e e'))) ltac:(lia)) as Hg.
  cbn [Zdigits2] in Hg. rewrite Hd in Hg.
  assert (Z.pos (digits2_pos m) <= 53)
    by (apply (Zdigits2_le (Z.pos m)); lia).
  eapply Z.lt_le_trans; [exact Hg|]. apply Z.pow_le_mono_r; lia.
Qed.

Lemma SFadd_fits (lo hi : Z) (a b : spec_float) :
  fits lo hi a -> fits lo hi b -> -968 <= lo -> hi + 2 <= 971 ->
  fits (lo - 52) (hi + 2) (SF64add a b).
Proof.
  destruct a as [sa| | |sa ma ea], b as [sb| | |sb mb eb]; cbn [fits];
    try contradiction; intros Ha Hb Hl Hh.
  - destruct sa, sb; exact I.
  - cbn. lia.
  - cbn. lia.
  - unfold SF64add, SFadd.
    set (ez := Z.min ea eb).
    pose proof (shl_align_value ma ea ez ltac:(lia) ltac:(lia)) as Va.
    pose proof (shl_align_value mb eb ez ltac:(lia) ltac:(lia)) as Vb.
    set (xa := Z.pos (fst (shl_align ma ea ez))) in *.
    set (xb := Z.pos (fst (shl_align mb eb ez))) in *.
    assert (Pa : 0 < xa) by (subst xa; lia).
    assert (Pb : 0 < xb) by (subst xb; lia).
    set (k := 54 + (Z.max ea eb - ez)).
    assert (Hk : xa + xb < 2 ^ k).
    { subst k. replace (54 + (Z.max ea eb - ez)) with (1 + (53 + (Z.max ea eb - ez))) by lia.
      rewrite Z.pow_add_r by lia. change (2 ^ 1) with 2.
      assert (2 ^ (53 + (ea - ez)) <= 2 ^ (53 + (Z.max ea eb - ez)))
        by (apply Z.pow_le_mono_r; lia).
      assert (2 ^ (53 + (eb - ez)) <= 2 ^ (53 + (Z.max ea eb - ez)))
        by (apply Z.pow_le_mono_r; lia).
      lia. }
    set (M := cond_Zopp sa xa + cond_Zopp sb xb).
    assert (HM : Z.abs M < 2 ^ k).
    { subst M. destruct sa, sb; cbn [cond_Zopp]; lia. }
    destruct M as [|p|p] eqn:EM; cbn [binary_normalize]; [exact I| |].
    + assert (D : Z.pos (digits2_pos p) <= k)
        by (apply (Zdigits2_le (Z.pos p)); subst k; lia).
      eapply fits_weaken; [| |apply binary_round_fits]; subst k; lia.
    + assert (D : Z.pos (digits2_pos p) <= k)
        by (apply (Zdigits2_le (Z.pos p)); subst k; lia).
      eapply fits_weaken; [| |apply binary_round_fits]; subst k; lia.
Qed.

Lemma valid_digits (s : bool) (m : positive) (e : Z) :
  valid_binary (S754_finite s m e) = true -> -1074 < e ->
  Z.pos (digits2_pos m) = 53.
Proof.
  cbn [SpecFloat.valid_binary]. unfold bounded, canonical_mantissa.
  intros H He. apply andb_prop in H. destruct H as [H _].
  apply Z.eqb_eq in H. revert H.
  unfold fexp, SpecFloat.emin, prec, emax. lia.
Qed.

Lemma SFmul_two (x : spec_float) :
  valid_binary x = true ->
  match x with S754_finite _ _ e => -1021 <= e | _ => True end ->
  SF64mul sf_two x = sf_double x.
Proof.
  destruct x as [s| s | |s m e]; intros Hv He; try reflexivity.
  pose proof (valid_digits s m e Hv ltac:(lia)) as Hd.
  unfold SF64mul, SFmul, sf_two. cbn [xorb].
  change (4503599627370496 * m)%positive
    with (Pos.iter xO m 52).
  unfold binary_round_aux.
  assert (E1 : shr_fexp prec emax (Z.pos (Pos.iter xO m 52)) (-51 + e) loc_Exact
               = ({| shr_m := Z.pos m; shr_r := false; shr_s := false |}, e + 1)).
  { unfold shr_fexp. cbn [Zdigits2].
    rewrite digits2_pos_iter_xO, Hd.
    replace (fexp prec emax (53 + 52 + (-51 + e)) - (-51 + e)) with 52
      by (unfold fexp, SpecFloat.emin, prec, emax; lia).
    cbn [shr SpecFloat.iter_pos shr_1 shr_record_of_loc Pos.iter orb].
    f_equal. lia. }
  rewrite E1. cbn [shr_m loc_of_shr_record round_nearest_even].
  assert (E2 : shr_fexp prec emax (Z.pos m) (e + 1) loc_Exact
               = ({| shr_m := Z.pos m; shr_r := false; shr_s := false |}, e + 1)).
  { unfold shr_fexp. cbn [Zdigits2]. rewrite Hd.
    rewrite fexp_unclamped by lia.
    replace (53 + (e + 1) - 53 - (e + 1)) with 0 by lia. reflexivity. }
  rewrite E2. cbn [shr_m]. reflexivity.
Qed.

Lemma calculate_net_epa_b64_spec (o d : float) :
  Prim2SF (calculate_net_epa_b64 o d) = net_sf (Prim2SF o) (Prim2SF d).
Proof.
  unfold calculate_net_epa_b64, net_sf.
  rewrite FloatAxioms.div_spec, FloatAxioms.add_spec, !FloatAxioms.mul_spec. reflexivity.
Qed.

Lemma binary_round_aux_lower (s : bool) (m e : Z) (l : location) :
  -1021 <= e ->
  match binary_round_aux prec emax s m e l with
  | S754_finite _ _ e' => e <= e'
  | _ => True
  end.
Proof.
  intros He. unfold binary_round_aux.
  destruct (shr_fexp_double m e l He) as [_ L1].
  destruct (shr_fexp prec emax m e l) as [mrs' e']. cbn [snd] in L1.
  destruct (shr_fexp_double
              (round_nearest_even (shr_m mrs') (loc_of_shr_record mrs'))
              e' loc_Exact ltac:(lia)) as [_ L2].
  destruct (shr_fexp prec emax _ e' loc_Exact) as [mrs'' e'']. cbn [snd] in L2.
  destruct (shr_m mrs''); try exact I.
  destruct (e'' <=? emax - prec); [lia | exact I].
Qed.

Lemma SFmul_const_double (lo hi : Z) (x : spec_float) (sc : bool) (mc : positive) (ec : Z) :
  fits lo hi x -> hi + 1 <= 971 -> -1021 <= lo + ec ->
  SF64mul (sf_double x) (S754_finite sc mc ec)
  = sf_double (SF64mul x (S754_finite sc mc ec)).
Proof.
  destruct x as [s| | |s m e]; cbn [fits]; try contradiction; intros Hx Hh Hl.
  - reflexivity.
  - cbn [sf_double].
    replace (e + 1 <=? emax - prec) with true
      by (symmetry; apply Z.leb_le; unfold emax, prec; lia).
    apply SFmul_double. lia.
Qed.

Lemma SFdiv_const_double (lo hi : Z) (x : spec_float) (sc : bool) (mc : positive) (ec : Z) :
  fits lo hi x -> hi + 1 <= 971 -> -900 <= lo ->
  Z.pos (digits2_pos mc) + ec <= 60 -> ec <= 60 ->
  SF64div (sf_double x) (S754_finite sc mc ec)
  = sf_double (SF64div x (S754_finite sc mc ec)).
Proof.
  destruct x as [s| | |s m e]; cbn [fits]; try contradiction;
    intros Hx Hh Hl Hd Hc.
  - reflexivity.
  - cbn [sf_double].
    replace (e + 1 <=? emax - prec) with true
      by (symmetry; apply Z.leb_le; unfold emax, prec; lia).
    apply SFdiv_double; lia.
Qed.

Lemma net_sf_sum_fits (o d : spec_float) :
  fits (-252) 148 o -> fits (-252) 148 d ->
  fits (-304) 150 (SF64mul o sf_1_6) /\
  fits (-304) 150 (SF64mul d sf_1_0) /\
  fits (-356) 152 (SF64add (SF64mul o sf_1_6) (SF64mul d sf_1_0)).
Proof.
  intros Ho Hd.
  assert (Ha : fits (-304) 150 (SF64mul o sf_1_6)).
  { change (-304) with (-252 + -52). change 150 with (148 + -52 + 54).
    apply SFmul_fits; [exact Ho | reflexivity | lia | lia]. }
  assert (Hb : fits (-304) 150 (SF64mul d sf_1_0)).
  { change (-304) with (-252 + -52). change 150 with (148 + -52 + 54).
    apply SFmul_fits; [exact Hd | reflexivity | lia | lia]. }
  split; [exact Ha|]. split; [exact Hb|].
  change (-356) with (-304 - 52). change 152 with (150 + 2).
  apply SFadd_fits; [exact Ha | exact Hb | lia | lia].
Qed.

Lemma net_sf_double (o d : spec_float) :
  fits (-252) 148 o -> fits (-252) 148 d ->
  net_sf (sf_double o) (sf_double d) = sf_double (net_sf o d).
Proof.
  intros Ho Hd. unfold net_sf.
  destruct (net_sf_sum_fits o d Ho Hd) as (Ha & Hb & Hs).
  unfold sf_1_6 at 1, sf_1_0 at 1.
  rewrite (SFmul_const_double (-252) 148 o) by (try exact Ho; lia).
  rewrite (SFmul_const_double (-252) 148 d) by (try exact Hd; lia).
  fold sf_1_6 sf_1_0.
  rewrite SFadd_double by (eapply fits_weaken; [| |eassumption]; lia).
  unfold sf_2_6.
  apply (SFdiv_const_double (-356) 152); [exact Hs | lia | lia | cbn; lia | lia].
Qed.

Lemma net_sf_lower (o d : spec_float) :
  fits (-252) 148 o -> fits (-252) 148 d ->
  match net_sf o d with S754_finite _ _ e => -1021 <= e | _ => True end.
Proof.
  intros Ho Hd. unfold net_sf.
  destruct (net_sf_sum_fits o d Ho Hd) as (_ & _ & Hs).
  destruct (SF64add (SF64mul o sf_1_6) (SF64mul d sf_1_0)) as [s| | |s m e];
    cbn [fits] in Hs; try contradiction.
  - exact I.
  - unfold SF64div, SFdiv, sf_2_6, SFdiv_core_binary. cbn [Zdigits2].
    set (e' := Z.min _ _).
    assert (He' : -1021 <= e').
    { subst e'. change (Z.pos (digits2_pos 5854679515581645)) with 53.
      unfold fexp, SpecFloat.emin, prec, emax. lia. }
    destruct (Z.div_eucl _ _) as [q r].
    pose proof (binary_round_aux_lower (xorb s false) q e'
                  (new_location (Z.pos 5854679515581645) r) He') as L.
    destruct (binary_round_aux _ _ _ _ _ _); try exact I. lia.
Qed.

Lemma moderate_fits (x : float) :
  moderate x = true -> fits (-252) 148 (Prim2SF x).
Proof.
  unfold moderate, is_zero. rewrite FloatAxioms.eqb_spec, !FloatAxioms.leb_spec, FloatAxioms.abs_spec.
  change (Prim2SF zero) with (S754_zero false).
  change (Prim2SF 0x1p-200%float) with (S754_finite false 4503599627370496 (-252)).
  change (Prim2SF 0x1p200%float) with (S754_finite false 4503599627370496 148).
  pose proof (FloatAxioms.Prim2SF_valid x) as Hv.
  destruct (Prim2SF x) as [s|s| |s m e]; cbn [fits SFabs].
  - intros _. exact I.
  - destruct s; cbn; discriminate.
  - cbn. discriminate.
  - intros H. apply orb_prop in H. destruct H as [H|H].
    { destruct s; cbn in H; discriminate. }
    apply andb_prop in H. destruct H as [H1 H2].
    unfold SFleb, SFcompare in H1, H2.
    assert (L : -252 <= e).
    { destruct (Z.compare_spec (-252) e); first [lia | discriminate]. }
    assert (U : e <= 148).
    { destruct (Z.compare_spec e 148); first [lia | discriminate]. }
    split; [lia|].
    pose proof (valid_digits s m e Hv ltac:(lia)) as D.
    pose proof (Zdigits2_gt (Z.pos m) ltac:(lia)) as G. cbn [Zdigits2] in G.
    rewrite D in G. exact G.
Qed.

Lemma mul_two_double (x : float) :
  match Prim2SF x with S754_finite _ _ e => -1021 <= e | _ => True end ->
  Prim2SF (2 * x)%float = sf_double (Prim2SF x).
Proof.
  intros H. rewrite FloatAxioms.mul_spec.
  change (Prim2SF 2%float) with sf_two.
  apply SFmul_two; [apply FloatAxioms.Prim2SF_valid | exact H].
Qed.

Lemma calculate_net_epa_b64_double (o d : float) :
  moderate o = true -> moderate d = true ->
  calculate_net_epa_b64 (2 * o) (2 * d) = (2 * calculate_net_epa_b64 o d)%float.
Proof.
  intros Ho Hd. apply moderate_fits in Ho, Hd.
  apply FloatAxioms.Prim2SF_inj.
  rewrite calculate_net_epa_b64_spec.
  rewrite !mul_two_double.
  - rewrite calculate_net_epa_b64_spec. apply net_sf_double; assumption.
  - rewrite calculate_net_epa_b64_spec. apply net_sf_lower; assumption.
  - destruct (Prim2SF d); cbn [fits] in Hd; try exact I. lia.
  - destruct (Prim2SF o); cbn [fits] in Ho; try exact I. lia.
Qed.

End Binary64.

(** C7, as the code has it.  Read over exact rationals, the expression
    [(o * 1.6 + d * 1.0) / 2.6] of the combiner is [(8 o + 5 d) / 13], and
    scaling both arguments by [k] scales it by [k], for every [k].  The
    code evaluates the expression in binary64.  There the scaling law
    holds for [k = 2], on arguments that are zero or of a magnitude
    between [2^-200] and [2^200]; it does not hold for every positive
    [k]. *)
Theorem net_epa_formula_and_scaling :
  (forall o d : Q,
     calculate_net_epa o d = (o * 1.6 + d * 1.0) / 2.6 /\
     calculate_net_epa o d == (8 * o + 5 * d) / 13) /\
  (forall o d k : Q,
     calculate_net_epa (k * o) (k * d) == k * calculate_net_epa o d) /\
  (forall o d : float,
     moderate o = true -> moderate d = true ->
     calculate_net_epa_b64 (2 * o) (2 * d)
     = (2 * calculate_net_epa_b64 o d)%float).
Proof.
  split; [intros o d; split; [reflexivity | apply calculate_net_epa_lowest_terms]|].
  split; [intros o d k; apply calculate_net_epa_scale|].
  apply calculate_net_epa_b64_double.
Qed.

Lemma net_epa_formula_and_scaling_witness :
  moderate 0.13 = true /\ moderate (-0.26) = true /\
  calculate_net_epa_b64 (2 * 0.13) (2 * -0.26)
  = (2 * calculate_net_epa_b64 0.13 (-0.26))%float.
Proof.
  assert (Ho : moderate 0.13 = true) by (vm_compute; reflexivity).
  assert (Hd : moderate (-0.26) = true) by (vm_compute; reflexivity).
  split; [exact Ho|]. split; [exact Hd|].
  exact (proj2 (proj2 net_epa_formula_and_scaling) 0.13%float (-0.26)%float Ho Hd).
Defined.

(** With [k = 3], [o = 0.13] and [d = -0.26], two moderate floats, the two
    sides of the scaling law are the floats [-0.059999999999999963] and
    [-0.059999999999999991]: Python's [==] is false on them. *)
Lemma net_epa_scaling_fails_for_three :
  moderate 0.13 = true /\ moderate (-0.26) = true /\
  calculate_net_epa_b64 (3 * 0.13) (3 * -0.26) = (-0.059999999999999963)%float /\
  (3 * calculate_net_epa_b64 0.13 (-0.26))%float = (-0.059999999999999991)%float /\
  (calculate_net_epa_b64 (3 * 0.13) (3 * -0.26)
   =? 3 * calculate_net_epa_b64 0.13 (-0.26))%float = false /\
  calculate_net_epa_b64 (3 * 0.13) (3 * -0.26)
  <> (3 * calculate_net_epa_b64 0.13 (-0.26))%float.
Proof.
  assert (E : (calculate_net_epa_b64 (3 * 0.13) (3 * -0.26)
               =? 3 * calculate_net_epa_b64 0.13 (-0.26))%float = false)
    by (vm_compute; reflexivity).
  do 4 (split; [vm_compute; reflexivity|]).
  split; [exact E|].
  intros H. rewrite H in E. vm_compute in E. discriminate E.
Qed.

(** ** Expected pass rate *)

(** C5. The expected pass rate is
    [0.6 (pass_rate + proe) + 0.4 (pass_rate + (def_pass_rate_against -
    league_avg_pass_rate))] plus a step of the signed spread: [+0.05] from
    7 up, [+0.03] on [4, 7), [-0.04] from -7 down, [-0.02] on (-7, -4],
    nothing in between; the all-0.60 matchup with no spread gives 0.60. *)
Theorem expected_pass_rate_formula (pass_rate proe def_against league_avg spread : Q) :
  let base :=
    0.6 * (pass_rate + proe) + 0.4 * (pass_rate + (def_against - league_avg)) in
  let rate :=
    calculate_expected_pass_rate pass_rate proe def_against league_avg spread in
  (7 <= spread -> rate == base + 0.05) /\
  (4 <= spread < 7 -> rate == base + 0.03) /\
  (spread <= -7 -> rate == base - 0.04) /\
  (-7 < spread <= -4 -> rate == base - 0.02) /\
  (-4 < spread < 4 -> rate == base) /\
  calculate_expected_pass_rate 0.60 0.0 0.60 0.60 0 == 0.60.
Proof.
  cbv zeta. unfold calculate_expected_pass_rate.
  repeat split; try reflexivity; intros H; qcases; try lra; ring.
Qed.

Lemma expected_pass_rate_formula_witness :
  calculate_expected_pass_rate 0.55 0.02 0.63 0.60 7 ==
    0.6 * (0.55 + 0.02) + 0.4 * (0.55 + (0.63 - 0.60)) + 0.05 /\
  calculate_expected_pass_rate 0.55 0.02 0.63 0.60 4 ==
    0.6 * (0.55 + 0.02) + 0.4 * (0.55 + (0.63 - 0.60)) + 0.03 /\
  calculate_expected_pass_rate 0.55 0.02 0.63 0.60 (-7) ==
    0.6 * (0.55 + 0.02) + 0.4 * (0.55 + (0.63 - 0.60)) - 0.04 /\
  calculate_expected_pass_rate 0.55 0.02 0.63 0.60 (-4) ==
    0.6 * (0.55 + 0.02) + 0.4 * (0.55 + (0.63 - 0.60)) - 0.02 /\
  calculate_expected_pass_rate 0.55 0.02 0.63 0.60 3.5 ==
    0.6 * (0.55 + 0.02) + 0.4 * (0.55 + (0.63 - 0.60)).
Proof.
  split; [apply (expected_pass_rate_formula 0.55 0.02 0.63 0.60 7); lra|].
  split; [apply (expected_pass_rate_formula 0.55 0.02 0.63 0.60 4); lra|].
  split; [apply (expected_pass_rate_formula 0.55 0.02 0.63 0.60 (-7)); lra|].
  split; [apply (expected_pass_rate_formula 0.55 0.02 0.63 0.60 (-4)); lra|].
  apply (expected_pass_rate_formula 0.55 0.02 0.63 0.60 3.5); lra.
Defined.

(** ** Weather penalty *)

Lemma precip_lookup (precipitation : string) :
  default 0.0 (precip_impact !! precipitation) ==
  spec_precipitation_penalty precipitation.
Proof.
  unfold spec_precipitation_penalty, precip_impact.
  destruct (String.eqb_spec precipitation "heavy_rain") as [->|N1]; [reflexivity|].
  destruct (String.eqb_spec precipitation "light_snow") as [->|N2]; [reflexivity|].
  destruct (String.eqb_spec precipitation "heavy_snow") as [->|N3]; [reflexivity|].
  destruct (String.eqb_spec precipitation "blizzard") as [->|N4]; [reflexivity|].
  rewrite !lookup_insert_ne, lookup_singleton_ne by congruence. reflexivity.
Qed.

Lemma spec_wind_penalty_nonneg w : 0 <= spec_wind_penalty w.
Proof. unfold spec_wind_penalty. qcases; lra. Qed.

Lemma spec_temperature_penalty_nonneg t : 0 <= spec_temperature_penalty t.
Proof. unfold spec_temperature_penalty. qcases; lra. Qed.

Lemma spec_precipitation_penalty_nonneg p : 0 <= spec_precipitation_penalty p.
Proof.
  unfold spec_precipitation_penalty.
  repeat match goal with |- context [String.eqb ?a ?b] => destruct (String.eqb a b) end;
    lra.
Qed.

(** C4. The weather penalty is the sum of a wind band (highest band only),
    a below-zero temperature term and a precipitation lookup, each
    depending on its own input alone; it is never negative, and wind 20,
    temperature -5, blizzard gives 16. *)
Theorem weather_adjustment_components (wind_mph temp_f : Q) (precipitation : string) :
  calculate_weather_adjustment wind_mph temp_f precipitation ==
    spec_wind_penalty wind_mph + spec_temperature_penalty temp_f
    + spec_precipitation_penalty precipitation /\
  0 <= calculate_weather_adjustment wind_mph temp_f precipitation /\
  calculate_weather_adjustment 20 (-5) "blizzard" == 16.0.
Proof.
  assert (Hsum : calculate_weather_adjustment wind_mph temp_f precipitation ==
    spec_wind_penalty wind_mph + spec_temperature_penalty temp_f
    + spec_precipitation_penalty precipitation).
  { unfold calculate_weather_adjustment. cbv zeta.
    rewrite precip_lookup.
    unfold spec_wind_penalty, spec_temperature_penalty.
    generalize (spec_precipitation_penalty precipitation) as p. intros p.
    qcases; try lra; ring. }
  split; [exact Hsum|]. split; [|reflexivity].
  rewrite Hsum.
  pose proof (spec_wind_penalty_nonneg wind_mph).
  pose proof (spec_temperature_penalty_nonneg temp_f).
  pose proof (spec_precipitation_penalty_nonneg precipitation).
  lra.
Qed.

(** ** Stepping through a call *)

Lemma getitem_Ok {A : Type} (d : gmap string A) (key : string) (v : A) :
  getitem d key = Ok v -> d !! key = Some v.
Proof. unfold getitem. destruct (d !! key); congruence. Qed.

Lemma getitem_lookup {A : Type} (d : gmap string A) (key : string) (v : A) :
  d !! key = Some v -> getitem d key = Ok v.
Proof. unfold getitem. intros ->. reflexivity. Qed.

Lemma getitem_absent {A : Type} (d : gmap string A) (key : string) :
  d !! key = None -> getitem d key = Raise (KeyError key).
Proof. unfold getitem. intros ->. reflexivity. Qed.

Lemma num_Ok (v : value) (q : Q) : num v = Ok q -> v = Some q.
Proof. destruct v; simpl; congruence. Qed.

Lemma weighted_floats (s l : Q) (g : Z) :
  weighted (Some s) (Some l) g = Ok (Some (calculate_weighted_epa s l g)).
Proof. reflexivity. Qed.

(** Unfold the sequencing of exceptions, and nothing else. *)
Ltac norm := cbv beta iota zeta delta [mbind result_bind] in *.

(** One step of a call: case analysis on the outcome of the next
    operation that can raise, or on the next test.  Goals in which the
    call under a hypothesis-to-be has raised are closed. *)
Ltac step :=
  match goal with
  | |- context [match ?m with Ok _ => _ | Raise _ => _ end] =>
      lazymatch m with
      | (if ?b then _ else _) => destruct b eqn:?
      | _ => destruct m eqn:?
      end; norm; try (intros; discriminate)
  | |- context [if ?b then _ else _] =>
      destruct b eqn:?; norm; try (intros; discriminate)
  end.

(** Turn the recorded outcomes into facts about the records. *)
Ltac outcomes :=
  repeat match goal with
    | H : getitem _ _ = Ok _ |- _ => apply getitem_Ok in H
    | H : num _ = Ok _ |- _ => apply num_Ok in H
    end.

(** ** The cap on the pass rate *)

Lemma clamp_bounds (x : Q) :
  0.35 <= py_max 0.35 (py_min 0.75 x) <= 0.75.
Proof. unfold py_max, py_min. qcases; lra. Qed.

Lemma clamp_low (x : Q) : x <= 0.35 -> py_max 0.35 (py_min 0.75 x) == 0.35.
Proof. intros H. unfold py_max, py_min. qcases; lra. Qed.

Lemma clamp_high (x : Q) : 0.75 <= x -> py_max 0.35 (py_min 0.75 x) == 0.75.
Proof. intros H. unfold py_max, py_min. qcases; lra. Qed.

Lemma clamp_inside (x : Q) :
  0.35 <= x <= 0.75 -> py_max 0.35 (py_min 0.75 x) == x.
Proof. intros H. unfold py_max, py_min. qcases; lra. Qed.

Lemma adjust_expected_pass_rate
    (team_stats opp_stats : gmap string value) (is_home : bool) (tg og : Z)
    (spread : Q) (qb_out : bool) (wr ol edge : Z) (lg : Q) (hs : string)
    (po opo dpo : value) (st : adjusted) :
  project_team_score_adjust team_stats opp_stats is_home tg og spread qb_out
    wr ol edge lg hs po opo dpo = Ok st ->
  exists tp pr dp : Q,
    team_stats !! "pass_rate" = Some (Some tp) /\
    team_stats !! "proe" = Some (Some pr) /\
    resolve dpo (get opp_stats "def_pass_rate_against" (Some 0.60)) = Some dp /\
    expected_pass_rate st ==
      calculate_expected_pass_rate tp pr dp lg spread
      - (if qb_out then 0.07 else 0) - inject_Z wr * 0.02
      - (if (ol >=? 2)%Z then 0.02 else 0)
      + (if (edge >=? 1)%Z then 0.025 else 0).
Proof.
  unfold project_team_score_adjust. norm.
  repeat step.
  all: intros [= <-]; outcomes; subst; cbn [expected_pass_rate].
  all: eexists _, _, _; repeat (split; [eassumption|]); ring.
Qed.

(** C3. In every result of [project_team_score] the [pass_rate] field is
    the expected pass rate, as it stands after the injury adjustments,
    capped to [0.35, 0.75]; the run rate used for the matchup EPA and for
    the blended success rate is one minus that field; and the expected
    pass rate itself is not capped: it is [calculate_expected_pass_rate]
    with the adjustments added, and [calculate_expected_pass_rate] leaves
    the interval freely. *)
Theorem pass_rate_clamped_once
    (team_stats opp_stats : gmap string value) (is_home : bool) (tg og : Z)
    (spread : Q) (qb_out : bool) (wr ol edge : Z) (ppp lg : Q) (hs : string)
    (po opo dpo : value) (res : projection) :
  project_team_score team_stats opp_stats is_home tg og spread qb_out wr ol edge
    ppp lg hs po opo dpo = Ok res ->
  exists (st : adjusted) (tp pr dp dpass drun rs : Q),
    project_team_score_adjust team_stats opp_stats is_home tg og spread qb_out
      wr ol edge lg hs po opo dpo = Ok st /\
    team_stats !! "pass_rate" = Some (Some tp) /\
    team_stats !! "proe" = Some (Some pr) /\
    resolve dpo (get opp_stats "def_pass_rate_against" (Some 0.60)) = Some dp /\
    expected_pass_rate st ==
      calculate_expected_pass_rate tp pr dp lg spread
      - (if qb_out then 0.07 else 0) - inject_Z wr * 0.02
      - (if (ol >=? 2)%Z then 0.02 else 0)
      + (if (edge >=? 1)%Z then 0.025 else 0) /\
    pass_rate res = py_max 0.35 (py_min 0.75 (expected_pass_rate st)) /\
    0.35 <= pass_rate res <= 0.75 /\
    (expected_pass_rate st <= 0.35 -> pass_rate res == 0.35) /\
    (0.75 <= expected_pass_rate st -> pass_rate res == 0.75) /\
    (0.35 <= expected_pass_rate st <= 0.75 ->
       pass_rate res == expected_pass_rate st) /\
    d_pass st = Some dpass /\ d_run st = Some drun /\ run_success st = Some rs /\
    matchup_epa res ==
      pass_rate res * calculate_net_epa (o_pass st) dpass
      + (1 - pass_rate res) * calculate_net_epa (o_run st) drun /\
    pass_attempts res == pass_rate res * plays res /\
    success_rate res ==
      pass_rate res * pass_success st + (1 - pass_rate res) * rs /\
    calculate_expected_pass_rate 0.90 0 0.60 0.60 0 == 0.90 /\
    calculate_expected_pass_rate 0.20 0 0.60 0.60 0 == 0.20.
Proof.
  unfold project_team_score.
  destruct (project_team_score_adjust team_stats opp_stats is_home tg og spread
              qb_out wr ol edge lg hs po opo dpo) as [st|e] eqn:Hst;
    norm; [|discriminate].
  unfold project_team_score_combine. norm.
  destruct (num (d_pass st)) as [dpass|] eqn:Hdp; norm; [|discriminate].
  destruct (num (d_run st)) as [drun|] eqn:Hdr; norm; [|discriminate].
  destruct (num (run_success st)) as [rs|] eqn:Hrs; norm; [|discriminate].
  intros [= <-]. cbn [pass_rate plays pass_attempts matchup_epa success_rate].
  outcomes.
  destruct (adjust_expected_pass_rate _ _ _ _ _ _ _ _ _ _ _ _ _ _ _ _ Hst)
    as (tp & pr & dp & Htp & Hpr & Hdpo & Hraw).
  exists st, tp, pr, dp, dpass, drun, rs.
  repeat (split; [first [reflexivity | assumption]|]).
  split; [apply clamp_bounds|].
  split; [apply clamp_low|].
  split; [apply clamp_high|].
  split; [apply clamp_inside|].
  repeat (split; [first [assumption | reflexivity | ring]|]).
  split; reflexivity.
Qed.

Lemma pass_rate_clamped_once_witness :
  exists res : projection,
    project_team_score (<["pass_rate" := Some 0.90]> league_average) league_average
      true 8 8 0 false 0 0 0 0.365 0.60 "average" None None None = Ok res /\
    0.35 <= pass_rate res <= 0.75.
Proof.
  assert (H : exists res : projection,
    project_team_score (<["pass_rate" := Some 0.90]> league_average) league_average
      true 8 8 0 false 0 0 0 0.365 0.60 "average" None None None = Ok res)
    by (vm_compute; eexists; reflexivity).
  destruct H as [res H]. exists res. split; [exact H|].
  destruct (pass_rate_clamped_once _ _ _ _ _ _ _ _ _ _ _ _ _ _ _ _ res H)
    as (st & tp & pr & dp & dpass & drun & rs & _ & _ & _ & _ & _ & _ & Hb & _).
  exact Hb.
Defined.

(** ** Quarterback out *)



(** League-average tendencies with no other injury leave that room,
    whatever the spread: the expected pass rate stays in [0.56, 0.65]. *)
Lemma neutral_stats_leave_room
    (team_stats opp_stats : gmap string value) (is_home : bool) (tg og : Z)
    (spread lg : Q) (hs : string) (po opo dpo : value) (s0 : adjusted) :
  team_stats !! "pass_rate" = Some (Some 0.60) ->
  team_stats !! "proe" = Some (Some 0.0) ->
  resolve dpo (get opp_stats "def_pass_rate_against" (Some 0.60)) = Some lg ->
  project_team_score_adjust team_stats opp_stats is_home tg og spread false
    0 0 0 lg hs po opo dpo = Ok s0 ->
  0.42 <= expected_pass_rate s0 <= 0.75.
Proof.
  intros Hp He Hd H.
  destruct (adjust_expected_pass_rate _ _ _ _ _ _ _ _ _ _ _ _ _ _ _ _ H)
    as (tp & pr & dp & Htp & Hpr & Hdp & Hraw).
  rewrite Hp in Htp. rewrite He in Hpr. rewrite Hd in Hdp.
  injection Htp as <-. injection Hpr as <-. injection Hdp as <-.
  change (0 >=? 2)%Z with false in Hraw.
  change (0 >=? 1)%Z with false in Hraw.
  change (inject_Z 0) with 0 in Hraw.
  rewrite Hraw. unfold calculate_expected_pass_rate. qcases; lra.
Qed.

(** Without that room the cap absorbs part of the reduction: a team
    passing on 30% of its plays is projected at 0.35 with or without its
    quarterback. *)
Lemma qb_out_under_the_cap :
  exists r0 r1 : projection,
    project_team_score (<["pass_rate" := Some 0.30]> league_average) league_average
      true 8 8 0 false 0 0 0 0.365 0.60 "average" None None None = Ok r0 /\
    project_team_score (<["pass_rate" := Some 0.30]> league_average) league_average
      true 8 8 0 true 0 0 0 0.365 0.60 "average" None None None = Ok r1 /\
    pass_rate r0 == 0.35 /\ pass_rate r1 == 0.35.
Proof. vm_compute. eexists _, _. repeat split. Qed.


(** ** Home venue lookup *)

Lemma home_adj_absent (hs : string) :
  ~ known_strength hs -> home_adj !! hs = None.
Proof.
  unfold known_strength, home_adj. intros H.
  rewrite !lookup_insert_ne, lookup_singleton_ne by (intros <-; tauto).
  reflexivity.
Qed.

Lemma home_adj_known (hs : string) :
  known_strength hs <-> exists h : Q, getitem home_adj hs = Ok h.
Proof.
  split.
  - intros [-> | [-> | ->]]; eexists; reflexivity.
  - intros [h H].
    destruct (decide (hs = "weak")) as [|N1]; [left; assumption|].
    destruct (decide (hs = "average")) as [|N2]; [right; left; assumption|].
    destruct (decide (hs = "strong")) as [|N3]; [right; right; assumption|].
    rewrite getitem_absent in H; [discriminate|].
    apply home_adj_absent. unfold known_strength. tauto.
Qed.

Lemma adjust_unknown_strength
    (team_stats opp_stats : gmap string value) (is_home : bool) (tg og : Z)
    (spread : Q) (qb_out : bool) (wr ol edge : Z) (lg : Q) (hs : string)
    (po opo dpo : value) (st : adjusted) :
  ~ known_strength hs ->
  project_team_score_adjust team_stats opp_stats is_home tg og spread qb_out
    wr ol edge lg hs po opo dpo <> Ok st.
Proof.
  intros Hhs. apply home_adj_absent, getitem_absent in Hhs.
  unfold project_team_score_adjust. norm.
  repeat step; congruence.
Qed.

Lemma adjust_strength_reached
    (team_stats opp_stats : gmap string value) (is_home : bool) (tg og : Z)
    (spread : Q) (qb_out : bool) (wr ol edge : Z) (lg : Q) (hs : string)
    (po opo dpo : value) (st : adjusted) :
  ~ known_strength hs ->
  project_team_score_adjust team_stats opp_stats is_home tg og spread qb_out
    wr ol edge lg "average" po opo dpo = Ok st ->
  project_team_score_adjust team_stats opp_stats is_home tg og spread qb_out
    wr ol edge lg hs po opo dpo = Raise (KeyError hs).
Proof.
  intros Hhs. apply home_adj_absent, getitem_absent in Hhs.
  unfold project_team_score_adjust. norm.
  repeat step; intros _; congruence.
Qed.

(** C9. [home_adj[home_strength]] succeeds exactly for "weak", "average"
    and "strong".  With any other [home_strength] no call returns a
    result, whatever [is_home] is; and a call that is sound otherwise (it
    returns a result with "average") raises [KeyError] on that key, for
    the away team as for the home team. *)
Theorem home_strength_lookup (hs : string) :
  (known_strength hs <-> exists h : Q, getitem home_adj hs = Ok h) /\
  (~ known_strength hs -> getitem home_adj hs = Raise (KeyError hs)) /\
  (~ known_strength hs ->
   forall (team_stats opp_stats : gmap string value) (is_home : bool)
          (tg og : Z) (spread : Q) (qb_out : bool) (wr ol edge : Z)
          (ppp lg : Q) (po opo dpo : value),
     (exists e : exn,
        project_team_score team_stats opp_stats is_home tg og spread qb_out
          wr ol edge ppp lg hs po opo dpo = Raise e) /\
     ((exists r : projection,
         project_team_score team_stats opp_stats is_home tg og spread qb_out
           wr ol edge ppp lg "average" po opo dpo = Ok r) ->
      project_team_score team_stats opp_stats is_home tg og spread qb_out
        wr ol edge ppp lg hs po opo dpo = Raise (KeyError hs))).
Proof.
  split; [apply home_adj_known|].
  split; [intros H; apply getitem_absent, home_adj_absent, H|].
  intros Hhs team_stats opp_stats is_home tg og spread qb_out wr ol edge
    ppp lg po opo dpo.
  unfold project_team_score. split.
  - destruct (project_team_score_adjust team_stats opp_stats is_home tg og
                spread qb_out wr ol edge lg hs po opo dpo) as [st|e] eqn:H.
    + exfalso. exact (adjust_unknown_strength _ _ _ _ _ _ _ _ _ _ _ _ _ _ _ _ Hhs H).
    + exists e. reflexivity.
  - intros [r H].
    destruct (project_team_score_adjust team_stats opp_stats is_home tg og
                spread qb_out wr ol edge lg "average" po opo dpo)
      as [st|e] eqn:Hst; norm; [|discriminate].
    rewrite (adjust_strength_reached _ _ _ _ _ _ _ _ _ _ _ _ _ _ _ _ Hhs Hst).
    reflexivity.
Qed.

Lemma home_strength_lookup_witness :
  getitem home_adj "elite" = Raise (KeyError "elite") /\
  project_team_score league_average league_average false 8 8 0 false 0 0 0
    0.365 0.60 "elite" None None None = Raise (KeyError "elite").
Proof.
  assert (Hhs : ~ known_strength "elite")
    by (unfold known_strength; intros [H | [H | H]]; discriminate H).
  destruct (home_strength_lookup "elite") as (_ & Hlookup & Hcall).
  split; [exact (Hlookup Hhs)|].
  apply (Hcall Hhs). vm_compute. eexists. reflexivity.
Defined.

(** ** The zero-pace safety check *)

Lemma safe_pace_nonzero (p : Q) : ~ p == 0 -> safe_pace (Some p) = p.
Proof.
  intros H. unfold safe_pace.
  destruct (Qeq_bool p 0) eqn:E; [|reflexivity].
  apply Qeq_bool_iff in E. contradiction.
Qed.

Lemma safe_pace_zero (p : Q) : p == 0 -> safe_pace (Some p) = 62.0.
Proof.
  intros H. unfold safe_pace. apply Qeq_bool_iff in H. rewrite H. reflexivity.
Qed.

Lemma adjust_expected_plays
    (team_stats opp_stats : gmap string value) (is_home : bool) (tg og : Z)
    (spread : Q) (qb_out : bool) (wr ol edge : Z) (lg : Q) (hs : string)
    (po opo dpo : value) (st : adjusted) :
  project_team_score_adjust team_stats opp_stats is_home tg og spread qb_out
    wr ol edge lg hs po opo dpo = Ok st ->
  expected_plays st ==
    calculate_expected_plays
      (safe_pace (resolve po (get team_stats "pace" (Some 65.0))))
      (safe_pace (resolve opo (get opp_stats "pace" (Some 65.0))))
      spread
    - (if qb_out then 3.0 else 0).
Proof.
  unfold project_team_score_adjust. norm.
  repeat step.
  all: intros [= <-]; cbn [expected_plays]; ring.
Qed.

Lemma project_team_score_plays
    (team_stats opp_stats : gmap string value) (is_home : bool) (tg og : Z)
    (spread : Q) (qb_out : bool) (wr ol edge : Z) (ppp lg : Q) (hs : string)
    (po opo dpo : value) (res : projection) :
  project_team_score team_stats opp_stats is_home tg og spread qb_out wr ol edge
    ppp lg hs po opo dpo = Ok res ->
  plays res ==
    calculate_expected_plays
      (safe_pace (resolve po (get team_stats "pace" (Some 65.0))))
      (safe_pace (resolve opo (get opp_stats "pace" (Some 65.0))))
      spread
    - (if qb_out then 3.0 else 0).
Proof.
  unfold project_team_score.
  destruct (project_team_score_adjust team_stats opp_stats is_home tg og spread
              qb_out wr ol edge lg hs po opo dpo) as [st|e] eqn:Hst;
    norm; [|discriminate].
  apply adjust_expected_plays in Hst.
  unfold project_team_score_combine. norm.
  repeat step. all: intros [= <-]; cbn [plays]; exact Hst.
Qed.

(** C10. The safety check replaces the resolved pace by 62.0 when it is
    [None] or equal to 0, and in no other case.  A negative pace, whether
    it comes from the override or from the record, goes unchanged into the
    average of [calculate_expected_plays]; with a pace override of -200
    the projected plays, pass attempts and score are all negative. *)
Theorem negative_pace_not_guarded :
  safe_pace None = 62.0 /\
  (forall p : Q, p == 0 -> safe_pace (Some p) = 62.0) /\
  (forall p : Q, ~ p == 0 -> safe_pace (Some p) = p) /\
  (forall (team_stats opp_stats : gmap string value) (is_home : bool)
          (tg og : Z) (spread : Q) (qb_out : bool) (wr ol edge : Z)
          (ppp lg : Q) (hs : string) (po opo dpo : value)
          (p : Q) (res : projection),
     p < 0 ->
     resolve po (get team_stats "pace" (Some 65.0)) = Some p ->
     project_team_score team_stats opp_stats is_home tg og spread qb_out
       wr ol edge ppp lg hs po opo dpo = Ok res ->
     plays res ==
       calculate_expected_plays p
         (safe_pace (resolve opo (get opp_stats "pace" (Some 65.0)))) spread
       - (if qb_out then 3.0 else 0)) /\
  (exists res : projection,
     project_team_score league_average league_average true 8 8 0 false 0 0 0
       0.365 0.60 "average" (Some (-200)) None None = Ok res /\
     plays res < 0 /\ pass_attempts res < 0 /\ score res < 0).
Proof.
  split; [reflexivity|].
  split; [exact safe_pace_zero|].
  split; [exact safe_pace_nonzero|].
  split.
  - intros team_stats opp_stats is_home tg og spread qb_out wr ol edge
      ppp lg hs po opo dpo p res Hneg Hpace Hres.
    apply project_team_score_plays in Hres.
    rewrite Hpace, safe_pace_nonzero in Hres by lra.
    exact Hres.
  - vm_compute. eexists. split; [reflexivity|].
    repeat split.
Qed.

Lemma negative_pace_not_guarded_witness :
  exists res : projection,
    project_team_score (<["pace" := Some (-30)]> league_average) league_average
      false 8 8 0 true 0 0 0 0.365 0.60 "weak" None (Some 0) None = Ok res /\
    plays res ==
      calculate_expected_plays (-30)
        (safe_pace (resolve (Some 0) (get league_average "pace" (Some 65.0)))) 0
      - (if true then 3.0 else 0).
Proof.
  assert (H : exists res : projection,
    project_team_score (<["pace" := Some (-30)]> league_average) league_average
      false 8 8 0 true 0 0 0 0.365 0.60 "weak" None (Some 0) None = Ok res)
    by (vm_compute; eexists; reflexivity).
  destruct H as [res H]. exists res. split; [exact H|].
  assert (Hneg : -30 < 0) by reflexivity.
  assert (Hpace : resolve None
            (get (<["pace" := Some (-30)]> league_average) "pace" (Some 65.0))
          = Some (-30)) by (vm_compute; reflexivity).
  exact (proj1 (proj2 (proj2 (proj2 negative_pace_not_guarded)))
           (<["pace" := Some (-30)]> league_average) league_average
           false 8%Z 8%Z 0 true 0%Z 0%Z 0%Z 0.365 0.60 "weak" None (Some 0) None
           (-30) res Hneg Hpace H).
Defined.

(** ** Game aggregator *)

Lemma betting_insights_frame (s : locals) :
  team_a_proj (betting_insights s) = team_a_proj s /\
  team_b_proj (betting_insights s) = team_b_proj s /\
  weather_adjustment (betting_insights s) = weather_adjustment s /\
  base_total (betting_insights s) = base_total s /\
  weather_adjusted_total (betting_insights s) = weather_adjusted_total s.
Proof.
  unfold betting_insights. cbv zeta.
  repeat match goal with
    | |- context [if ?b then _ else _] => destruct b
    end; repeat split.
Qed.

Lemma print_totals_frame (s : locals) :
  team_a_proj (print_totals s) = team_a_proj s /\
  team_b_proj (print_totals s) = team_b_proj s /\
  weather_adjustment (print_totals s) = weather_adjustment s /\
  base_total (print_totals s) = base_total s /\
  weather_adjusted_total (print_totals s) = weather_adjusted_total s.
Proof.
  unfold print_totals. cbv zeta. destruct (Qgtb (weather_adjustment s) 0); repeat split.
Qed.

Lemma betting_insights_stdout (s : locals) :
  stdout (betting_insights s) =
  (stdout s
  ++ (if Qgeb (weather_adjusted_total s) 48 then [HighScoring]
      else if Qleb (weather_adjusted_total s) 40 then [LowScoring] else [])
  ++ (if Qgeb (pass_attempts (team_a_proj s) + pass_attempts (team_b_proj s)) 80
      then [HighPassVolume] else [])
  ++ (if Qgeb (weather_adjustment s) 3 then [WeatherImpact (weather_adjustment s)]
      else [])
  ++ (if Qgeb ((success_rate (team_a_proj s) + success_rate (team_b_proj s)) / 2) 0.48
      then [HighSuccess]
      else if Qleb ((success_rate (team_a_proj s) + success_rate (team_b_proj s)) / 2) 0.42
      then [LowSuccess] else []))%list.
Proof.
  unfold betting_insights. cbv zeta.
  destruct (Qgeb (weather_adjusted_total s) 48);
    [|destruct (Qleb (weather_adjusted_total s) 40)].
  all: cbn [print team_a_proj team_b_proj weather_adjustment stdout].
  all: destruct (Qgeb (pass_attempts (team_a_proj s) + pass_attempts (team_b_proj s)) 80).
  all: cbn [print team_a_proj team_b_proj weather_adjustment stdout].
  all: destruct (Qgeb (weather_adjustment s) 3).
  all: cbn [print team_a_proj team_b_proj weather_adjustment stdout].
  all: destruct (Qgeb ((success_rate (team_a_proj s) + success_rate (team_b_proj s)) / 2) 0.48);
    [|destruct (Qleb ((success_rate (team_a_proj s) + success_rate (team_b_proj s)) / 2) 0.42)].
  all: cbn [print stdout]; rewrite <- ?app_assoc; cbn [app]; rewrite ?app_nil_r;
    reflexivity.
Qed.

Lemma print_totals_stdout (s : locals) :
  stdout (print_totals s) =
  (stdout s
  ++ (if Qgtb (weather_adjustment s) 0
      then [BaseTotal (base_total s); WeatherAdjustment (weather_adjustment s);
            FinalTotal (weather_adjusted_total s)]
      else [ProjectedTotal (weather_adjusted_total s)]))%list.
Proof.
  unfold print_totals. cbv zeta.
  destruct (Qgtb (weather_adjustment s) 0);
    cbn [print stdout base_total weather_adjustment weather_adjusted_total];
    rewrite <- ?app_assoc; reflexivity.
Qed.

Lemma In_if1 {A : Type} (c : bool) (g f : A) :
  In f (if c then [g] else []) <-> c = true /\ g = f.
Proof. destruct c; cbn; intuition discriminate. Qed.

Lemma In_if2 {A : Type} (c1 c2 : bool) (g1 g2 f : A) :
  In f (if c1 then [g1] else if c2 then [g2] else []) <->
  (c1 = true /\ g1 = f) \/ (c1 = false /\ c2 = true /\ g2 = f).
Proof. destruct c1, c2; cbn; intuition discriminate. Qed.

Lemma report_stdout (a b : projection) (w : Q) (f : line) :
  In f (stdout (get_game_projection_report a b w)) <->
  In f (if Qgtb w 0
        then [BaseTotal (score a + score b); WeatherAdjustment w;
              FinalTotal (score a + score b - w)]
        else [ProjectedTotal (score a + score b - w)]) \/
  (48 <= score a + score b - w /\ HighScoring = f) \/
  (score a + score b - w <= 40 /\ LowScoring = f) \/
  (80 <= pass_attempts a + pass_attempts b /\ HighPassVolume = f) \/
  (3 <= w /\ WeatherImpact w = f) \/
  (0.48 <= (success_rate a + success_rate b) / 2 /\ HighSuccess = f) \/
  ((success_rate a + success_rate b) / 2 <= 0.42 /\ LowSuccess = f).
Proof.
  unfold get_game_projection_report.
  rewrite betting_insights_stdout.
  destruct (print_totals_frame (totals a b w)) as (-> & -> & -> & _ & ->).
  rewrite print_totals_stdout.
  cbn [totals team_a_proj team_b_proj weather_adjustment base_total
       weather_adjusted_total stdout app].
  rewrite !in_app_iff, !In_if1, In_if2, In_if2.
  rewrite !Qgeb_true, !Qleb_true.
  unfold Qgeb. rewrite !Qle_bool_false.
  intuition lra.
Qed.

Lemma report_frame (a b : projection) (w : Q) :
  team_a_proj (get_game_projection_report a b w) = a /\
  team_b_proj (get_game_projection_report a b w) = b /\
  weather_adjustment (get_game_projection_report a b w) = w /\
  base_total (get_game_projection_report a b w) = score a + score b /\
  weather_adjusted_total (get_game_projection_report a b w) = score a + score b - w.
Proof.
  unfold get_game_projection_report.
  destruct (betting_insights_frame (print_totals (totals a b w)))
    as (-> & -> & -> & -> & ->).
  destruct (print_totals_frame (totals a b w)) as (-> & -> & -> & -> & ->).
  repeat split.
Qed.

(** One advisory line: it is printed exactly when its test holds. *)
Ltac flag :=
  rewrite report_stdout;
  match goal with |- context [Qgtb ?w 0] => destruct (Qgtb w 0) end;
  cbn [In]; intuition (first [discriminate | lra | reflexivity]).

(** C8. The report has [base_total = scoreA + scoreB] and
    [final_total = base_total - w]; each advisory line is printed exactly
    when its threshold test holds (total at least 48 or at most 40,
    combined pass attempts at least 80, penalty at least 3, average
    blended success rate at least 0.48 or at most 0.42); and the insights
    block, from whatever state it is run, leaves both projections, the
    penalty and both totals as they were. *)
Theorem aggregator_totals_and_flags (a b : projection) (w : Q) :
  let r := get_game_projection_report a b w in
  base_total r = score a + score b /\
  weather_adjusted_total r = base_total r - w /\
  team_a_proj r = a /\ team_b_proj r = b /\
  (In HighScoring (stdout r) <-> 48 <= weather_adjusted_total r) /\
  (In LowScoring (stdout r) <-> weather_adjusted_total r <= 40) /\
  (In HighPassVolume (stdout r) <-> 80 <= pass_attempts a + pass_attempts b) /\
  (In (WeatherImpact w) (stdout r) <-> 3 <= w) /\
  (In HighSuccess (stdout r) <-> 0.48 <= (success_rate a + success_rate b) / 2) /\
  (In LowSuccess (stdout r) <-> (success_rate a + success_rate b) / 2 <= 0.42) /\
  (forall s : locals,
     team_a_proj (betting_insights s) = team_a_proj s /\
     team_b_proj (betting_insights s) = team_b_proj s /\
     weather_adjustment (betting_insights s) = weather_adjustment s /\
     base_total (betting_insights s) = base_total s /\
     weather_adjusted_total (betting_insights s) = weather_adjusted_total s).
Proof.
  cbv zeta.
  destruct (report_frame a b w) as (Ha & Hb & Hw & Hbase & Htotal).
  rewrite Ha, Hb, Hbase, Htotal.
  split; [reflexivity|]. split; [reflexivity|].
  split; [reflexivity|]. split; [reflexivity|].
  split; [flag|]. split; [flag|]. split; [flag|]. split; [flag|].
  split; [flag|]. split; [flag|].
  exact betting_insights_frame.
Qed.

(** ** Missing fields *)








Lemma floats_complete
    (team_stats opp_stats : gmap string value) (is_home : bool) (tg og : Z)
    (spread : Q) (qb_out : bool) (wr ol edge : Z) (ppp lg : Q) (hs : string)
    (po opo dpo : value) :
  floats_at team_stats team_keys ->
  floats_at opp_stats opp_keys ->
  known_strength hs ->
  (exists d : Q,
     resolve dpo (get opp_stats "def_pass_rate_against" (Some 0.60)) = Some d) ->
  exists res : projection,
    project_team_score team_stats opp_stats is_home tg og spread qb_out wr ol
      edge ppp lg hs po opo dpo = Ok res.
Proof.
  unfold floats_at, team_keys, opp_keys. intros Ht Ho Hhs [d Hd].
  apply home_adj_known in Hhs. destruct Hhs as [h Hh].
  repeat match goal with
    | H : Forall _ (_ :: _) |- _ =>
        let H1 := fresh "H" in
        pose proof (Forall_inv H) as H1; apply Forall_inv_tail in H;
        cbv beta in H1; destruct H1 as [? H1]; apply (getitem_lookup (A:=value)) in H1
    end.
  unfold project_team_score, project_team_score_adjust.
  repeat match goal with
    | E : getitem _ _ = Ok _ |- _ => rewrite E; clear E
    end.
  rewrite Hd. cbn [weighted num]. norm. cbn [num]. norm.
  destruct qb_out, (ol >=? 2)%Z, (edge >=? 1)%Z, is_home; norm;
    unfold project_team_score_combine; cbn [d_pass d_run run_success num]; norm;
    eexists; reflexivity.
Qed.

Lemma merge_team_floats (tend off_s off_l def_s def_l : gmap string Q) :
  floats_at (merge_team tend off_s off_l def_s def_l) team_keys /\
  floats_at (merge_team tend off_s off_l def_s def_l) opp_keys.
Proof.
  unfold floats_at, team_keys, opp_keys, merge_team. cbn [list_to_map foldr].
  split; repeat (constructor; [eexists; simplify_map_eq; reflexivity|]); constructor.
Qed.


Lemma merge_team_data_floats
    (tendencies off_season off_l5 def_season def_l5 :
       option (gmap string (gmap string Q)))
    (teams : gmap string (gmap string value)) (name : string)
    (record : gmap string value) :
  merge_team_data tendencies off_season off_l5 def_season def_l5 = Some teams ->
  teams !! name = Some record ->
  floats_at record team_keys /\ floats_at record opp_keys.
Proof.
  unfold merge_team_data.
  destruct (negb (forallb truthy [tendencies; off_season; off_l5; def_season; def_l5]));
    [discriminate|].
  intros [= <-]. rewrite map_lookup_imap.
  destruct (default ∅ tendencies !! name) as [tend|]; [|discriminate].
  cbn. intros [= <-]. apply merge_team_floats.
Qed.




(** * Further properties of the blending functions *)

Lemma Qabs_cases (x : Q) : (0 <= x /\ Qabs x == x) \/ (x <= 0 /\ Qabs x == - x).
Proof.
  destruct (Qlt_le_dec x 0) as [H|H].
  - right. split; [lra|]. apply Qabs_neg. lra.
  - left. split; [lra|]. apply Qabs_pos. exact H.
Qed.

Lemma Qhalf (x : Q) : x / 2 == x * 0.5.
Proof. field. Qed.

(** X1. Expected plays are the mean of the two paces plus 3 for a spread
    within 3 points either way, minus 4 for a spread of 10 or more either
    way, and the mean itself in between; the value is the same for the
    two teams of a game, who see the paces swapped and the spread with
    the opposite sign. *)
Theorem expected_plays_bands_and_symmetry (team_pace opp_pace spread : Q) :
  (-3 <= spread <= 3 ->
   calculate_expected_plays team_pace opp_pace spread
     == (team_pace + opp_pace) / 2 + 3) /\
  (spread <= -10 \/ 10 <= spread ->
   calculate_expected_plays team_pace opp_pace spread
     == (team_pace + opp_pace) / 2 - 4) /\
  (-10 < spread < -3 \/ 3 < spread < 10 ->
   calculate_expected_plays team_pace opp_pace spread
     == (team_pace + opp_pace) / 2) /\
  calculate_expected_plays opp_pace team_pace (- spread)
    == calculate_expected_plays team_pace opp_pace spread.
Proof.
  unfold calculate_expected_plays. cbv zeta. rewrite !Qhalf.
  pose proof (Qabs_cases spread) as Ha.
  pose proof (Qabs_cases (- spread)) as Hb.
  repeat split; try intros H; qcases; lra.
Qed.

Lemma expected_plays_bands_and_symmetry_witness :
  calculate_expected_plays 64 66 (-2.5) == (64 + 66) / 2 + 3 /\
  calculate_expected_plays 64 66 10 == (64 + 66) / 2 - 4 /\
  calculate_expected_plays 64 66 (-7) == (64 + 66) / 2.
Proof.
  split; [apply (expected_plays_bands_and_symmetry 64 66 (-2.5)); lra|].
  split; [apply (expected_plays_bands_and_symmetry 64 66 10); lra|].
  apply (expected_plays_bands_and_symmetry 64 66 (-7)); lra.
Defined.



Lemma spec_precipitation_penalty_zero (p : string) :
  spec_precipitation_penalty p == 0 <->
  ~ (p = "heavy_rain" \/ p = "light_snow" \/ p = "heavy_snow" \/ p = "blizzard").
Proof.
  unfold spec_precipitation_penalty.
  destruct (String.eqb_spec p "heavy_rain") as [->|N1];
    [split; [discriminate | intros H; exfalso; apply H; tauto]|].
  destruct (String.eqb_spec p "light_snow") as [->|N2];
    [split; [discriminate | intros H; exfalso; apply H; tauto]|].
  destruct (String.eqb_spec p "heavy_snow") as [->|N3];
    [split; [discriminate | intros H; exfalso; apply H; tauto]|].
  destruct (String.eqb_spec p "blizzard") as [->|N4];
    [split; [discriminate | intros H; exfalso; apply H; tauto]|].
  split; [tauto | reflexivity].
Qed.

Lemma spec_precipitation_penalty_le (p : string) :
  spec_precipitation_penalty p <= 8.
Proof.
  unfold spec_precipitation_penalty.
  repeat match goal with |- context [String.eqb ?a ?b] => destruct (String.eqb a b) end;
    lra.
Qed.

Lemma weather_adjustment_sum (wind_mph temp_f : Q) (precipitation : string) :
  calculate_weather_adjustment wind_mph temp_f precipitation ==
    spec_wind_penalty wind_mph + spec_temperature_penalty temp_f
    + spec_precipitation_penalty precipitation.
Proof.
  unfold calculate_weather_adjustment. cbv zeta.
  rewrite precip_lookup.
  unfold spec_wind_penalty, spec_temperature_penalty.
  generalize (spec_precipitation_penalty precipitation) as p. intros p.
  qcases; try lra; ring.
Qed.

(** X3. The weather penalty never exceeds 16; it is zero exactly when the
    wind is under 10 mph, the temperature is not below zero and the
    precipitation is none of the four penalised kinds; and more wind
    never lowers it. *)
Theorem weather_adjustment_range (wind_mph wind_mph' temp_f : Q) (precipitation : string) :
  calculate_weather_adjustment wind_mph temp_f precipitation <= 16 /\
  (calculate_weather_adjustment wind_mph temp_f precipitation == 0 <->
   wind_mph < 10 /\ 0 <= temp_f /\
   ~ (precipitation = "heavy_rain" \/ precipitation = "light_snow" \/
      precipitation = "heavy_snow" \/ precipitation = "blizzard")) /\
  (wind_mph <= wind_mph' ->
   calculate_weather_adjustment wind_mph temp_f precipitation
   <= calculate_weather_adjustment wind_mph' temp_f precipitation).
Proof.
  rewrite !weather_adjustment_sum.
  pose proof (spec_precipitation_penalty_le precipitation) as Hle.
  pose proof (spec_precipitation_penalty_nonneg precipitation) as Hge.
  pose proof (spec_precipitation_penalty_zero precipitation) as Hz.
  unfold spec_wind_penalty, spec_temperature_penalty.
  split; [qcases; lra|]. split.
  - rewrite <- Hz.
    qcases; (split; [intros H; (split; [|split]); lra | intros (H1 & H2 & H3); lra]).
  - intros H. qcases; lra.
Qed.

Lemma weather_adjustment_range_witness :
  calculate_weather_adjustment 12 40 "heavy_rain"
  <= calculate_weather_adjustment 18 40 "heavy_rain".
Proof.
  apply (weather_adjustment_range 12 18 40 "heavy_rain"). lra.
Defined.



(** * Further properties of the engine *)

Lemma adjust_of_result
    (team_stats opp_stats : gmap string value) (is_home : bool) (tg og : Z)
    (spread : Q) (qb_out : bool) (wr ol edge : Z) (ppp lg : Q) (hs : string)
    (po opo dpo : value) (res : projection) :
  project_team_score team_stats opp_stats is_home tg og spread qb_out wr ol edge
    ppp lg hs po opo dpo = Ok res ->
  exists st : adjusted,
    project_team_score_adjust team_stats opp_stats is_home tg og spread qb_out
      wr ol edge lg hs po opo dpo = Ok st /\
    project_team_score_combine st ppp = Ok res.
Proof.
  unfold project_team_score.
  destruct (project_team_score_adjust team_stats opp_stats is_home tg og spread
              qb_out wr ol edge lg hs po opo dpo) as [st|e];
    norm; [|discriminate].
  intros H. exists st. split; [reflexivity | exact H].
Qed.

(** X7. The fields of every result add up: the score is
    [(pts_per_play_base + matchup_epa) * plays + success_adjustment], the
    success adjustment is 55 points per unit of success rate above 0.46,
    the pass attempts are [pass_rate * plays], and so lie between 35% and
    75% of the plays when the plays are not negative. *)
Theorem projection_fields_add_up
    (team_stats opp_stats : gmap string value) (is_home : bool) (tg og : Z)
    (spread : Q) (qb_out : bool) (wr ol edge : Z) (ppp lg : Q) (hs : string)
    (po opo dpo : value) (res : projection) :
  project_team_score team_stats opp_stats is_home tg og spread qb_out wr ol edge
    ppp lg hs po opo dpo = Ok res ->
  score res == (ppp + matchup_epa res) * plays res + success_adjustment res /\
  success_adjustment res == (success_rate res - 0.46) * 55 /\
  pass_attempts res == pass_rate res * plays res /\
  (0 <= plays res ->
   0.35 * plays res <= pass_attempts res <= 0.75 * plays res).
Proof.
  intros H. apply adjust_of_result in H. destruct H as (st & _ & H).
  revert H. unfold project_team_score_combine. norm.
  repeat step. intros [= <-].
  cbn [score matchup_epa plays success_adjustment success_rate pass_attempts pass_rate].
  split; [reflexivity|]. split; [reflexivity|]. split; [reflexivity|].
  intros Hp. pose proof (clamp_bounds (expected_pass_rate st)) as Hb.
  nra.
Qed.

Lemma projection_fields_add_up_witness :
  exists res : projection,
    project_team_score league_average league_average true 8 8 0 false 0 0 0
      0.365 0.60 "average" None None None = Ok res /\
    score res == (0.365 + matchup_epa res) * plays res + success_adjustment res.
Proof.
  assert (H : exists res : projection,
    project_team_score league_average league_average true 8 8 0 false 0 0 0
      0.365 0.60 "average" None None None = Ok res)
    by (vm_compute; eexists; reflexivity).
  destruct H as [res H]. exists res. split; [exact H|].
  exact (proj1 (projection_fields_add_up league_average league_average true
                  8%Z 8%Z 0 false 0%Z 0%Z 0%Z 0.365 0.60 "average"
                  None None None res H)).
Defined.






(** X10. The count of opposing edge rushers missing matters only through
    the test [edge_missing >= 1]: any two counts of at least one give the
    same outcome, result or exception, and so do any two counts below
    one. *)
Theorem edge_missing_threshold
    (team_stats opp_stats : gmap string value) (is_home : bool) (tg og : Z)
    (spread : Q) (qb_out : bool) (wr ol edge edge' : Z) (ppp lg : Q)
    (hs : string) (po opo dpo : value) :
  (1 <= edge /\ 1 <= edge')%Z \/ (edge < 1 /\ edge' < 1)%Z ->
  project_team_score team_stats opp_stats is_home tg og spread qb_out wr ol
    edge ppp lg hs po opo dpo
  = project_team_score team_stats opp_stats is_home tg og spread qb_out wr ol
      edge' ppp lg hs po opo dpo.
Proof.
  intros H. unfold project_team_score, project_team_score_adjust.
  destruct H as [[H1 H2] | [H1 H2]].
  - replace (edge >=? 1)%Z with true by (symmetry; apply Z.geb_le; lia).
    replace (edge' >=? 1)%Z with true by (symmetry; apply Z.geb_le; lia).
    reflexivity.
  - replace (edge >=? 1)%Z with false
      by (symmetry; rewrite Z.geb_leb; apply Z.leb_gt; lia).
    replace (edge' >=? 1)%Z with false
      by (symmetry; rewrite Z.geb_leb; apply Z.leb_gt; lia).
    reflexivity.
Qed.

Lemma edge_missing_threshold_witness :
  project_team_score league_average league_average true 8 8 0 false 0 0
    1 0.365 0.60 "average" None None None
  = project_team_score league_average league_average true 8 8 0 false 0 0
      3 0.365 0.60 "average" None None None.
Proof.
  apply (edge_missing_threshold league_average league_average true 8 8 0 false
           0 0 1 3 0.365 0.60 "average" None None None).
  left. lia.
Defined.



(** X12. A pace override takes the place of the record's pace: with an
    override given, the outcome does not depend on what the record holds
    under "pace".  An override of zero is not a fallback to the record:
    it is replaced by 62.0, as if 62.0 had been given. *)
Theorem pace_override_precedence
    (team_stats opp_stats : gmap string value) (is_home : bool) (tg og : Z)
    (spread : Q) (qb_out : bool) (wr ol edge : Z) (ppp lg : Q) (hs : string)
    (opo dpo v : value) (p : Q) :
  project_team_score (<["pace" := v]> team_stats) opp_stats is_home tg og
    spread qb_out wr ol edge ppp lg hs (Some p) opo dpo
  = project_team_score team_stats opp_stats is_home tg og spread qb_out wr ol
      edge ppp lg hs (Some p) opo dpo /\
  (p == 0 ->
   project_team_score team_stats opp_stats is_home tg og spread qb_out wr ol
     edge ppp lg hs (Some p) opo dpo
   = project_team_score team_stats opp_stats is_home tg og spread qb_out wr ol
       edge ppp lg hs (Some 62.0) opo dpo).
Proof.
  split.
  - unfold project_team_score, project_team_score_adjust, getitem.
    cbn [resolve]. rewrite !lookup_insert_ne by done. reflexivity.
  - intros Hp. unfold project_team_score, project_team_score_adjust.
    cbn [resolve]. rewrite (safe_pace_zero p Hp). reflexivity.
Qed.

Lemma pace_override_precedence_witness :
  project_team_score league_average league_average true 8 8 0 false 0 0 0
    0.365 0.60 "average" (Some 0) None None
  = project_team_score league_average league_average true 8 8 0 false 0 0 0
      0.365 0.60 "average" (Some 62.0) None None.
Proof.
  exact (proj2 (pace_override_precedence league_average league_average true
                  8%Z 8%Z 0 false 0%Z 0%Z 0%Z 0.365 0.60 "average"
                  None None None 0)
           (Qeq_refl 0)).
Defined.


Lemma weighted_early (s l : value) (g : Z) :
  (g <= 5)%Z -> weighted s l g = Ok s.
Proof.
  intros H. unfold weighted, calculate_weighted_epa.
  replace (g <=? 5)%Z with true by (symmetry; apply Z.leb_le; exact H).
  destruct s, l; reflexivity.
Qed.

(** With at most five games played the recent value of a pair is read
    and dropped: the outcome is that of any other recent value. *)
Ltac early_season k :=
  unfold project_team_score, project_team_score_adjust, getitem, get;
  rewrite lookup_insert_eq;
  rewrite !lookup_insert_ne by done;
  match goal with
  | H : ?d !! k = Some _ |- _ => rewrite H
  end;
  norm;
  repeat match goal with
    | |- context [weighted ?s ?l ?g] => rewrite (weighted_early s l g) by assumption; norm
    | |- context [match ?d !! ?k' with Some _ => _ | None => _ end] =>
        destruct (d !! k'); norm; [|reflexivity]
    end;
  reflexivity.

(** X13. While the team has played at most five games, its four last-5
    fields must be present but what they hold is ignored: replacing any
    of them by any value, [None] included, leaves the outcome as it is.
    The same holds for the opponent's two defensive last-5 fields while
    the opponent has played at most five games. *)
Theorem early_season_ignores_last5
    (team_stats opp_stats : gmap string value) (is_home : bool) (tg og : Z)
    (spread : Q) (qb_out : bool) (wr ol edge : Z) (ppp lg : Q) (hs : string)
    (po opo dpo v : value) (k : string) :
  ((tg <= 5)%Z ->
   In k ["last5_pass_epa"; "last5_run_epa"; "last5_pass_success";
         "last5_run_success"] ->
   is_Some (team_stats !! k) ->
   project_team_score (<[k := v]> team_stats) opp_stats is_home tg og spread
     qb_out wr ol edge ppp lg hs po opo dpo
   = project_team_score team_stats opp_stats is_home tg og spread qb_out wr ol
       edge ppp lg hs po opo dpo) /\
  ((og <= 5)%Z ->
   In k ["def_last5_pass_epa"; "def_last5_run_epa"] ->
   is_Some (opp_stats !! k) ->
   project_team_score team_stats (<[k := v]> opp_stats) is_home tg og spread
     qb_out wr ol edge ppp lg hs po opo dpo
   = project_team_score team_stats opp_stats is_home tg og spread qb_out wr ol
       edge ppp lg hs po opo dpo).
Proof.
  split; intros Hg Hin [v0 Hv]; cbn [In] in Hin.
  - destruct Hin as [<- | [<- | [<- | [<- | []]]]].
    + early_season "last5_pass_epa".
    + early_season "last5_run_epa".
    + early_season "last5_pass_success".
    + early_season "last5_run_success".
  - destruct Hin as [<- | [<- | []]].
    + early_season "def_last5_pass_epa".
    + early_season "def_last5_run_epa".
Qed.

Lemma early_season_ignores_last5_witness :
  project_team_score (<["last5_pass_epa" := None]> league_average)
    league_average true 3 8 0 false 0 0 0 0.365 0.60 "average" None None None
  = project_team_score league_average league_average true 3 8 0 false 0 0 0
      0.365 0.60 "average" None None None.
Proof.
  assert (Hg : (3 <= 5)%Z) by lia.
  assert (Hin : In "last5_pass_epa"
                  ["last5_pass_epa"; "last5_run_epa"; "last5_pass_success";
                   "last5_run_success"]) by (left; reflexivity).
  assert (Hs : is_Some (league_average !! "last5_pass_epa"))
    by (vm_compute; eexists; reflexivity).
  exact (proj1 (early_season_ignores_last5 league_average league_average true
                  3%Z 8%Z 0 false 0%Z 0%Z 0%Z 0.365 0.60 "average"
                  None None None None "last5_pass_epa")
           Hg Hin Hs).
Defined.


(** * Records built by merge_team_data in the engine *)

Lemma merge_team_pace (tend off_s off_l def_s def_l : gmap string Q) :
  merge_team tend off_s off_l def_s def_l !! "pace" = Some (tend !! "pace").
Proof. unfold merge_team. cbn [list_to_map foldr]. by simplify_map_eq. Qed.

Lemma merge_team_def_pass_rate (tend off_s off_l def_s def_l : gmap string Q) :
  merge_team tend off_s off_l def_s def_l !! "def_pass_rate_against"
  = Some (tend !! "def_pass_rate_against").
Proof. unfold merge_team. cbn [list_to_map foldr]. by simplify_map_eq. Qed.

(** X14. A record built by [merge_team_data] always holds the keys "pace"
    and "def_pass_rate_against", with [None] when the tendencies row
    lacks them, so the engine's own defaults of 65.0 and 0.60 are never
    reached for it.  A missing pace is projected as 62.0.  A missing
    defensive pass rate of the opponent, without an override, makes the
    call raise [TypeError] whenever the team's record holds its fields as
    floats. *)
Theorem merged_record_missing_tendencies
    (team_stats : gmap string value)
    (tend off_s off_l def_s def_l : gmap string Q)
    (is_home : bool) (tg og : Z)
    (spread : Q) (qb_out : bool) (wr ol edge : Z) (ppp lg : Q) (hs : string)
    (po opo dpo : value) :
  (tend !! "pace" = None ->
   project_team_score (merge_team tend off_s off_l def_s def_l) team_stats
     is_home tg og spread qb_out wr ol edge ppp lg hs None opo dpo
   = project_team_score (merge_team tend off_s off_l def_s def_l) team_stats
       is_home tg og spread qb_out wr ol edge ppp lg hs (Some 62.0) opo dpo) /\
  (tend !! "def_pass_rate_against" = None ->
   floats_at team_stats team_keys ->
   project_team_score team_stats (merge_team tend off_s off_l def_s def_l)
     is_home tg og spread qb_out wr ol edge ppp lg hs po opo None
   = Raise TypeError).
Proof.
  split.
  - intros H. unfold project_team_score, project_team_score_adjust.
    cbn [resolve].
    replace (get (merge_team tend off_s off_l def_s def_l) "pace" (Some 65.0))
      with (@None Q) by (unfold get; rewrite merge_team_pace, H; reflexivity).
    change (safe_pace None) with 62.0.
    change (safe_pace (Some 62.0)) with 62.0.
    reflexivity.
  - intros H Ht.
    destruct (merge_team_floats tend off_s off_l def_s def_l) as [_ Ho].
    unfold floats_at, team_keys, opp_keys in Ht, Ho.
    repeat match goal with
      | H : Forall _ (_ :: _) |- _ =>
          let H1 := fresh "H" in
          pose proof (Forall_inv H) as H1; apply Forall_inv_tail in H;
          cbv beta in H1; destruct H1 as [? H1];
          apply (getitem_lookup (A:=value)) in H1
      end.
    unfold project_team_score, project_team_score_adjust.
    repeat match goal with
      | E : getitem _ _ = Ok _ |- _ => rewrite E; clear E
      end.
    cbn [resolve].
    replace (get (merge_team tend off_s off_l def_s def_l)
               "def_pass_rate_against" (Some 0.60))
      with (@None Q)
      by (unfold get; rewrite merge_team_def_pass_rate, H; reflexivity).
    cbn [weighted num]. norm. reflexivity.
Qed.

Lemma league_average_floats :
  floats_at league_average team_keys /\ floats_at league_average opp_keys.
Proof.
  unfold floats_at, team_keys, opp_keys.
  split; repeat (constructor; [eexists; vm_compute; reflexivity|]); constructor.
Qed.

Lemma merged_record_missing_tendencies_witness :
  project_team_score league_average (merge_team ∅ ∅ ∅ ∅ ∅)
    true 8 8 0 false 0 0 0 0.365 0.60 "average" None None None
  = Raise TypeError.
Proof.
  assert (He : (∅ : gmap string Q) !! "def_pass_rate_against" = None)
    by (vm_compute; reflexivity).
  exact (proj2 (merged_record_missing_tendencies league_average ∅ ∅ ∅ ∅ ∅
                  true 8%Z 8%Z 0 false 0%Z 0%Z 0%Z 0.365 0.60 "average"
                  None None None)
           He (proj1 league_average_floats)).
Defined.

(** * merge_team_data *)

Lemma truthy_false (t : option (gmap string (gmap string Q))) :
  truthy t = false <-> t = None \/ t = Some ∅.
Proof.
  destruct t as [m|]; cbn.
  - rewrite negb_false_iff, bool_decide_eq_true.
    split; [intros ->; right; reflexivity | intros [H|H]; congruence].
  - split; [left; reflexivity | reflexivity].
Qed.

(** X15. [merge_team_data] gives up exactly when one of the five tables is
    missing or empty.  Otherwise the merged teams are the teams of the
    tendencies table and no others: a team's record is [merge_team] of its
    tendencies row and of its row in each statistics table, the empty row
    standing in for a table that does not list it, and a team listed only
    in statistics tables is dropped. *)
Theorem merge_team_data_teams
    (tendencies off_season off_l5 def_season def_l5 :
       option (gmap string (gmap string Q))) :
  (merge_team_data tendencies off_season off_l5 def_season def_l5 = None <->
   exists t, In t [tendencies; off_season; off_l5; def_season; def_l5] /\
             (t = None \/ t = Some ∅)) /\
  (forall (teams : gmap string (gmap string value)) (name : string),
     merge_team_data tendencies off_season off_l5 def_season def_l5 = Some teams ->
     teams !! name =
       match default ∅ tendencies !! name with
       | Some tend =>
           Some (merge_team tend
                   (default ∅ (default ∅ off_season !! name))
                   (default ∅ (default ∅ off_l5 !! name))
                   (default ∅ (default ∅ def_season !! name))
                   (default ∅ (default ∅ def_l5 !! name)))
       | None => None
       end).
Proof.
  unfold merge_team_data. split.
  - destruct (forallb truthy [tendencies; off_season; off_l5; def_season; def_l5])
      eqn:E; cbn [negb].
    + split; [discriminate|]. intros (t & Hin & Ht).
      rewrite forallb_forall in E. apply E in Hin.
      apply truthy_false in Ht. congruence.
    + split; [|reflexivity]. intros _.
      assert (H : ~ forallb truthy
                      [tendencies; off_season; off_l5; def_season; def_l5] = true)
        by congruence.
      rewrite forallb_forall in H.
      destruct (truthy tendencies) eqn:E1;
        [|exists tendencies; split; [cbn; tauto | apply truthy_false; exact E1]].
      destruct (truthy off_season) eqn:E2;
        [|exists off_season; split; [cbn; tauto | apply truthy_false; exact E2]].
      destruct (truthy off_l5) eqn:E3;
        [|exists off_l5; split; [cbn; tauto | apply truthy_false; exact E3]].
      destruct (truthy def_season) eqn:E4;
        [|exists def_season; split; [cbn; tauto | apply truthy_false; exact E4]].
      destruct (truthy def_l5) eqn:E5;
        [|exists def_l5; split; [cbn; tauto | apply truthy_false; exact E5]].
      exfalso. apply H. intros t Hin. cbn in Hin.
      intuition (subst; assumption).
  - intros teams name.
    destruct (negb (forallb truthy
                      [tendencies; off_season; off_l5; def_season; def_l5]));
      [discriminate|].
    intros [= <-]. rewrite map_lookup_imap.
    destruct (default ∅ tendencies !! name) as [tend|]; reflexivity.
Qed.

Lemma merge_team_data_teams_witness :
  merge_team_data sample_tendencies sample_stats (Some ∅) sample_stats
    sample_stats = None.
Proof.
  apply (proj1 (merge_team_data_teams sample_tendencies sample_stats (Some ∅)
                  sample_stats sample_stats)).
  exists (Some ∅). split; [cbn; tauto | right; reflexivity].
Defined.

(** * The answers of get_game_projection *)

(** X16. The games played handed to the engine are always between 0 and
    17: an answer in that range is kept, one outside it is cut to the
    nearer end, and no answer gives the week minus one for a week from 1
    to 18. *)
Theorem games_played_range (week : Z) (answer : option Z) (n : Z) :
  (0 <= games_played week answer <= 17)%Z /\
  ((0 <= n <= 17)%Z -> games_played week (Some n) = n) /\
  ((n < 0)%Z -> games_played week (Some n) = 0%Z) /\
  ((17 < n)%Z -> games_played week (Some n) = 17%Z) /\
  ((1 <= week <= 18)%Z -> games_played week None = (week - 1)%Z).
Proof.
  unfold games_played. cbv zeta. destruct answer as [a|]; simpl;
    repeat split; intros; lia.
Qed.

Lemma games_played_range_witness :
  games_played 9 (Some 12%Z) = 12%Z /\ games_played 9 None = (9 - 1)%Z.
Proof.
  split.
  - apply (games_played_range 9 (Some 12%Z) 12). lia.
  - apply (games_played_range 9 None 0). lia.
Defined.

Lemma venue_map_values (venue_input : string) :
  known_strength (get venue_map venue_input "average").
Proof.
  unfold get, venue_map, known_strength.
  destruct (decide (venue_input = "1")) as [->|N1]; [left; reflexivity|].
  destruct (decide (venue_input = "2")) as [->|N2]; [right; left; reflexivity|].
  destruct (decide (venue_input = "3")) as [->|N3]; [right; right; reflexivity|].
  rewrite !lookup_insert_ne, lookup_singleton_ne by done.
  right; left; reflexivity.
Qed.

(** X17. Whatever is typed for the location and the venue, the venue
    strength handed to the engine is "weak", "average" or "strong", so the
    engine's venue lookup succeeds.  A location other than "1" or "2", and
    an empty or unlisted venue answer, give "average". *)
Theorem venue_strength_always_known (location venue_input : string) :
  known_strength (venue_strength location venue_input) /\
  (exists h : Q, getitem home_adj (venue_strength location venue_input) = Ok h) /\
  (location <> "1" -> location <> "2" ->
   venue_strength location venue_input = "average") /\
  (venue_input <> "1" -> venue_input <> "3" ->
   venue_strength location venue_input = "average").
Proof.
  assert (Hk : known_strength (venue_strength location venue_input)).
  { unfold venue_strength. cbv zeta.
    destruct (String.eqb location "1" || String.eqb location "2");
      [apply venue_map_values | right; left; reflexivity]. }
  split; [exact Hk|]. split; [apply home_adj_known; exact Hk|].
  unfold venue_strength. cbv zeta. split.
  - intros N1 N2.
    destruct (String.eqb_spec location "1"); [contradiction|].
    destruct (String.eqb_spec location "2"); [contradiction|]. reflexivity.
  - intros N1 N3.
    destruct (String.eqb location "1" || String.eqb location "2");
      [|reflexivity].
    destruct (String.eqb_spec venue_input "") as [->|N0]; [reflexivity|].
    unfold get, venue_map.
    destruct (decide (venue_input = "2")) as [->|N2]; [reflexivity|].
    rewrite !lookup_insert_ne, lookup_singleton_ne by done. reflexivity.
Qed.

Lemma venue_strength_always_known_witness :
  venue_strength "3" "1" = "average" /\ venue_strength "1" "loud" = "average".
Proof.
  split.
  - apply (proj1 (proj2 (proj2 (venue_strength_always_known "3" "1"))));
      discriminate.
  - apply (proj2 (proj2 (proj2 (venue_strength_always_known "1" "loud"))));
      discriminate.
Defined.

(** X18. Indoors there is no weather penalty.  Outdoors the penalty is
    that of the typed wind and temperature (no wind and 70 degrees when
    left empty) plus 3 for precipitation answer "3", 2 for "4", 8 for "5"
    and nothing for any other answer: the 4.0 of "heavy_snow" cannot be
    reached from the prompt. *)
Theorem cli_weather_adjustment_cases
    (wind_answer temp_answer : option Q) (precip_input : string) :
  cli_weather_adjustment true wind_answer temp_answer precip_input == 0 /\
  cli_weather_adjustment false wind_answer temp_answer precip_input ==
    spec_wind_penalty (default 0 wind_answer)
    + spec_temperature_penalty (default 70 temp_answer)
    + (if String.eqb precip_input "3" then 3
       else if String.eqb precip_input "4" then 2
       else if String.eqb precip_input "5" then 8
       else 0) /\
  cli_weather_adjustment false None None precip_input ==
    (if String.eqb precip_input "3" then 3
     else if String.eqb precip_input "4" then 2
     else if String.eqb precip_input "5" then 8
     else 0).
Proof.
  assert (Hout : forall w t : option Q,
    cli_weather_adjustment false w t precip_input ==
    spec_wind_penalty (default 0 w) + spec_temperature_penalty (default 70 t)
    + (if String.eqb precip_input "3" then 3
       else if String.eqb precip_input "4" then 2
       else if String.eqb precip_input "5" then 8
       else 0)).
  { intros w t. unfold cli_weather_adjustment. cbn [negb]. cbv zeta.
    rewrite weather_adjustment_sum.
    apply Qplus_comp; [reflexivity|].
    unfold get, precip_map.
    destruct (String.eqb_spec precip_input "") as [->|N0]; [reflexivity|].
    destruct (String.eqb_spec precip_input "3") as [->|N3]; [reflexivity|].
    destruct (String.eqb_spec precip_input "4") as [->|N4]; [reflexivity|].
    destruct (String.eqb_spec precip_input "5") as [->|N5]; [reflexivity|].
    destruct (decide (precip_input = "1")) as [->|N1]; [reflexivity|].
    destruct (decide (precip_input = "2")) as [->|N2]; [reflexivity|].
    rewrite !lookup_insert_ne, lookup_singleton_ne by done. reflexivity. }
  split; [reflexivity|]. split; [apply Hout|].
  rewrite Hout.
  assert (Hw : spec_wind_penalty (default 0 None) = 0) by reflexivity.
  assert (Ht : spec_temperature_penalty (default 70 None) = 0) by reflexivity.
  rewrite Hw, Ht. ring.
Qed.

Lemma safe_pace_never_zero (pace : value) : ~ safe_pace pace == 0.
Proof.
  unfold safe_pace. destruct pace as [p|]; [|discriminate].
  destruct (Qeq_bool p 0) eqn:E; [discriminate|].
  intros H. apply Qeq_bool_iff in H. congruence.
Qed.

(** X19. The pace that enters the play-volume average is never zero, and
    for an override prepared by the prompt it is chosen in three steps:
    the record's pace when it is a non-zero number; otherwise the typed
    answer when that is non-zero; otherwise 62.0. *)
Theorem pace_resolution_order (record : gmap string value) (answer p : Q) (v : value) :
  ~ safe_pace v == 0 /\
  (record !! "pace" = Some (Some p) -> ~ p == 0 ->
   safe_pace (Some (from_csv_or_answer record "pace" answer)) = p) /\
  (record !! "pace" = None \/ record !! "pace" = Some None \/
   (record !! "pace" = Some (Some p) /\ p == 0) ->
   (~ answer == 0 ->
    safe_pace (Some (from_csv_or_answer record "pace" answer)) = answer) /\
   (answer == 0 ->
    safe_pace (Some (from_csv_or_answer record "pace" answer)) = 62.0)).
Proof.
  split; [apply safe_pace_never_zero|]. split.
  - intros H Hp. unfold from_csv_or_answer, get, value in *. rewrite H. cbn.
    destruct (Qeq_bool p 0) eqn:E; [apply Qeq_bool_iff in E; contradiction|].
    apply safe_pace_nonzero. exact Hp.
  - intros H.
    assert (Ha : from_csv_or_answer record "pace" answer = answer).
    { unfold from_csv_or_answer, get, value in *.
      destruct H as [-> | [-> | [-> Hp]]]; cbn; try reflexivity.
      apply Qeq_bool_iff in Hp. rewrite Hp. reflexivity. }
    rewrite Ha. split; [apply safe_pace_nonzero | apply safe_pace_zero].
Qed.

Lemma pace_resolution_order_witness :
  safe_pace (Some (from_csv_or_answer league_average "pace" 70)) = 65.0 /\
  safe_pace (Some (from_csv_or_answer ∅ "pace" 0)) = 62.0.
Proof.
  split.
  - assert (H : league_average !! "pace" = Some (Some 65.0))
      by (vm_compute; reflexivity).
    assert (Hn : ~ 65.0 == 0) by discriminate.
    exact (proj1 (proj2 (pace_resolution_order league_average 70 65.0 None)) H Hn).
  - assert (H : (∅ : gmap string value) !! "pace" = None)
      by (vm_compute; reflexivity).
    exact (proj2 (proj2 (proj2 (pace_resolution_order ∅ 0 0 None))
                    (or_introl H))
             (Qeq_refl 0)).
Defined.

Lemma calculate_expected_plays_swap (team_pace opp_pace spread : Q) :
  calculate_expected_plays opp_pace team_pace (- spread)
  == calculate_expected_plays team_pace opp_pace spread.
Proof.
  unfold calculate_expected_plays. cbv zeta. rewrite !Qhalf.
  pose proof (Qabs_cases spread) as Ha.
  pose proof (Qabs_cases (- spread)) as Hb.
  qcases; lra.
Qed.

Lemma project_both_Ok
    (teams : gmap string (gmap string value)) (team_a_name team_b_name : string)
    (location venue_input : string) (gp_a gp_b : Z) (spread : Q)
    (a_qb_out : bool) (a_wr_out a_ol_out b_edge_out : Z)
    (b_qb_out : bool) (b_wr_out b_ol_out a_edge_out : Z)
    (a_pace b_pace a_def_pass_rate b_def_pass_rate : Q)
    (team_a_proj team_b_proj : projection) :
  project_both teams team_a_name team_b_name location venue_input gp_a gp_b
    spread a_qb_out a_wr_out a_ol_out b_edge_out b_qb_out b_wr_out b_ol_out
    a_edge_out a_pace b_pace a_def_pass_rate b_def_pass_rate
  = Ok (team_a_proj, team_b_proj) ->
  exists team_a team_b : gmap string value,
    teams !! team_a_name = Some team_a /\
    teams !! team_b_name = Some team_b /\
    project_team_score team_a team_b (String.eqb location "1") gp_a gp_b
      spread a_qb_out a_wr_out a_ol_out b_edge_out 0.365 0.60
      (venue_strength location venue_input)
      (Some a_pace) (Some b_pace) (Some b_def_pass_rate) = Ok team_a_proj /\
    project_team_score team_b team_a (String.eqb location "2") gp_b gp_a
      (- spread) b_qb_out b_wr_out b_ol_out a_edge_out 0.365 0.60
      (venue_strength location venue_input)
      (Some b_pace) (Some a_pace) (Some a_def_pass_rate) = Ok team_b_proj.
Proof.
  unfold project_both. cbv zeta.
  destruct (getitem teams team_a_name) as [team_a|] eqn:Ea; norm; [|discriminate].
  destruct (getitem teams team_b_name) as [team_b|] eqn:Eb; norm; [|discriminate].
  match goal with
  | |- context [match ?m with Ok _ => _ | Raise _ => _ end] =>
      destruct m as [pa|] eqn:Epa
  end; norm; [|discriminate].
  match goal with
  | |- context [match ?m with Ok _ => _ | Raise _ => _ end] =>
      destruct m as [pb|] eqn:Epb
  end; norm; [|discriminate].
  intros [= <- <-]. outcomes. exists team_a, team_b. repeat split; assumption.
Qed.

(** X20. The two projections of a game share the play volume: team B is
    projected on the same average of the two paces and the same spread
    band as team A, so the plays of the two results differ only by the
    3.0 taken from a team whose quarterback is out.  At most one of the
    two calls is a home call. *)
Theorem project_both_same_plays
    (teams : gmap string (gmap string value)) (team_a_name team_b_name : string)
    (location venue_input : string) (gp_a gp_b : Z) (spread : Q)
    (a_qb_out : bool) (a_wr_out a_ol_out b_edge_out : Z)
    (b_qb_out : bool) (b_wr_out b_ol_out a_edge_out : Z)
    (a_pace b_pace a_def_pass_rate b_def_pass_rate : Q)
    (team_a_proj team_b_proj : projection) :
  project_both teams team_a_name team_b_name location venue_input gp_a gp_b
    spread a_qb_out a_wr_out a_ol_out b_edge_out b_qb_out b_wr_out b_ol_out
    a_edge_out a_pace b_pace a_def_pass_rate b_def_pass_rate
  = Ok (team_a_proj, team_b_proj) ->
  plays team_a_proj + (if a_qb_out then 3.0 else 0)
    == plays team_b_proj + (if b_qb_out then 3.0 else 0) /\
  (a_qb_out = b_qb_out -> plays team_a_proj == plays team_b_proj) /\
  String.eqb location "1" && String.eqb location "2" = false.
Proof.
  intros H. apply project_both_Ok in H.
  destruct H as (team_a & team_b & _ & _ & Ha & Hb).
  apply project_team_score_plays in Ha, Hb.
  cbn [resolve] in Ha, Hb.
  rewrite calculate_expected_plays_swap in Hb.
  assert (Hsum : plays team_a_proj + (if a_qb_out then 3.0 else 0)
                 == plays team_b_proj + (if b_qb_out then 3.0 else 0))
    by (rewrite Ha, Hb; ring).
  split; [exact Hsum|]. split.
  - intros <-. lra.
  - destruct (String.eqb_spec location "1") as [->|]; reflexivity.
Qed.

(** *** The conversion of the injury counts *)

Lemma float_of_int_converts (n : Z) :
  converts n -> float_of_int n = Ok (inject_Z n).
Proof.
  unfold converts, float_of_int. intros H. apply Z.ltb_lt in H.
  rewrite H. reflexivity.
Qed.

Lemma float_of_int_overflow (n : Z) :
  ~ converts n -> float_of_int n = Raise OverflowError.
Proof.
  unfold converts, float_of_int. intros H.
  destruct (Z.ltb_spec (Z.abs n) (2 ^ 1024 - 2 ^ 970)); [contradiction | reflexivity].
Qed.

Lemma converts_dec (n : Z) : converts n \/ ~ converts n.
Proof.
  unfold converts.
  destruct (Z.ltb_spec (Z.abs n) (2 ^ 1024 - 2 ^ 970)); [left | right]; lia.
Qed.

(** Both sides begin with the same operation: case analysis on its
    outcome. *)
Ltac lockstep :=
  repeat match goal with
    | |- match ?m with Ok _ => _ | Raise _ => _ end
         = match ?m with Ok _ => _ | Raise _ => _ end =>
        destruct m; norm; [|reflexivity]
    end.

Lemma project_team_score_adjust_checked_converts
    (team_stats opp_stats : gmap string value) (is_home : bool) (tg og : Z)
    (spread : Q) (qb_out : bool) (wr ol edge : Z) (lg : Q) (hs : string)
    (po opo dpo : value) :
  converts wr -> converts ol ->
  project_team_score_adjust_checked team_stats opp_stats is_home tg og spread
    qb_out wr ol edge lg hs po opo dpo
  = project_team_score_adjust team_stats opp_stats is_home tg og spread qb_out
      wr ol edge lg hs po opo dpo.
Proof.
  intros Hw Ho.
  unfold project_team_score_adjust_checked, project_team_score_adjust.
  rewrite !(float_of_int_converts wr Hw), !(float_of_int_converts ol Ho).
  norm. lockstep.
  destruct qb_out; norm;
    repeat match goal with
      | |- context [num ?v] =>
          is_var v; destruct v; cbn [num]; norm; [|reflexivity]
      end;
    reflexivity.
Qed.

Lemma project_team_score_checked_converts
    (team_stats opp_stats : gmap string value) (is_home : bool) (tg og : Z)
    (spread : Q) (qb_out : bool) (wr ol edge : Z) (ppp lg : Q) (hs : string)
    (po opo dpo : value) :
  converts wr -> converts ol ->
  project_team_score_checked team_stats opp_stats is_home tg og spread qb_out
    wr ol edge ppp lg hs po opo dpo
  = project_team_score team_stats opp_stats is_home tg og spread qb_out
      wr ol edge ppp lg hs po opo dpo.
Proof.
  intros Hw Ho. unfold project_team_score_checked, project_team_score.
  rewrite project_team_score_adjust_checked_converts by assumption.
  reflexivity.
Qed.

Lemma project_team_score_checked_overflow
    (team_stats opp_stats : gmap string value) (is_home : bool) (tg og : Z)
    (spread : Q) (qb_out : bool) (wr ol edge : Z) (ppp lg : Q) (hs : string)
    (po opo dpo : value) :
  floats_at team_stats team_keys ->
  floats_at opp_stats opp_keys ->
  (exists d : Q,
     resolve dpo (get opp_stats "def_pass_rate_against" (Some 0.60)) = Some d) ->
  ~ (converts wr /\ converts ol) ->
  project_team_score_checked team_stats opp_stats is_home tg og spread qb_out
    wr ol edge ppp lg hs po opo dpo
  = Raise OverflowError.
Proof.
  unfold floats_at, team_keys, opp_keys. intros Ht Ho [d Hd] Hn.
  repeat match goal with
    | H : Forall _ (_ :: _) |- _ =>
        let H1 := fresh "H" in
        pose proof (Forall_inv H) as H1; apply Forall_inv_tail in H;
        cbv beta in H1; destruct H1 as [? H1]; apply (getitem_lookup (A:=value)) in H1
    end.
  unfold project_team_score_checked, project_team_score_adjust_checked.
  repeat match goal with
    | E : getitem _ _ = Ok _ |- _ => rewrite E; clear E
    end.
  rewrite Hd. cbn [weighted num]. norm. cbn [num]. norm.
  destruct (converts_dec wr) as [Hw|Hw].
  - assert (Hl : ~ converts ol) by tauto.
    rewrite !(float_of_int_converts wr Hw), (float_of_int_overflow ol Hl).
    destruct qb_out; norm; cbn [num]; norm; reflexivity.
  - rewrite !(float_of_int_overflow wr Hw).
    destruct qb_out; norm; reflexivity.
Qed.

(** X21. On the records [merge_team_data] builds nothing is missing for
    the two calls of a game.  When the four injury counts that are
    multiplied by a float convert to one, the two calls return both
    projections, whatever the other answers, and these are the
    projections of [project_both].  When one of the four does not
    convert, the calls raise [OverflowError]. *)
Theorem project_both_total_on_merged
    (tendencies off_season off_l5 def_season def_l5 :
       option (gmap string (gmap string Q)))
    (teams : gmap string (gmap string value)) (team_a_name team_b_name : string)
    (location venue_input : string) (gp_a gp_b : Z) (spread : Q)
    (a_qb_out : bool) (a_wr_out a_ol_out b_edge_out : Z)
    (b_qb_out : bool) (b_wr_out b_ol_out a_edge_out : Z)
    (a_pace b_pace a_def_pass_rate b_def_pass_rate : Q) :
  merge_team_data tendencies off_season off_l5 def_season def_l5 = Some teams ->
  is_Some (teams !! team_a_name) ->
  is_Some (teams !! team_b_name) ->
  (converts a_wr_out /\ converts a_ol_out /\
   converts b_wr_out /\ converts b_ol_out ->
   exists team_a_proj team_b_proj : projection,
     project_both_checked teams team_a_name team_b_name location venue_input
       gp_a gp_b spread a_qb_out a_wr_out a_ol_out b_edge_out b_qb_out
       b_wr_out b_ol_out a_edge_out a_pace b_pace a_def_pass_rate
       b_def_pass_rate
     = Ok (team_a_proj, team_b_proj) /\
     project_both teams team_a_name team_b_name location venue_input
       gp_a gp_b spread a_qb_out a_wr_out a_ol_out b_edge_out b_qb_out
       b_wr_out b_ol_out a_edge_out a_pace b_pace a_def_pass_rate
       b_def_pass_rate
     = Ok (team_a_proj, team_b_proj)) /\
  (~ (converts a_wr_out /\ converts a_ol_out /\
      converts b_wr_out /\ converts b_ol_out) ->
   project_both_checked teams team_a_name team_b_name location venue_input
     gp_a gp_b spread a_qb_out a_wr_out a_ol_out b_edge_out b_qb_out
     b_wr_out b_ol_out a_edge_out a_pace b_pace a_def_pass_rate
     b_def_pass_rate
   = Raise OverflowError).
Proof.
  intros Hm [team_a Ha] [team_b Hb].
  destruct (merge_team_data_floats _ _ _ _ _ _ _ _ Hm Ha) as [Hat Hao].
  destruct (merge_team_data_floats _ _ _ _ _ _ _ _ Hm Hb) as [Hbt Hbo].
  assert (Hk : known_strength (venue_strength location venue_input)).
  { unfold venue_strength. cbv zeta.
    destruct (String.eqb location "1" || String.eqb location "2");
      [apply venue_map_values | right; left; reflexivity]. }
  destruct (floats_complete team_a team_b (String.eqb location "1") gp_a gp_b
              spread a_qb_out a_wr_out a_ol_out b_edge_out 0.365 0.60
              (venue_strength location venue_input)
              (Some a_pace) (Some b_pace) (Some b_def_pass_rate)
              Hat Hbo Hk (ex_intro _ b_def_pass_rate eq_refl)) as [pa Epa].
  destruct (floats_complete team_b team_a (String.eqb location "2") gp_b gp_a
              (- spread) b_qb_out b_wr_out b_ol_out a_edge_out 0.365 0.60
              (venue_strength location venue_input)
              (Some b_pace) (Some a_pace) (Some a_def_pass_rate)
              Hbt Hao Hk (ex_intro _ a_def_pass_rate eq_refl)) as [pb Epb].
  unfold project_both_checked, project_both. cbv zeta.
  rewrite (getitem_lookup _ _ _ Ha), (getitem_lookup _ _ _ Hb). norm.
  split.
  - intros (Haw & Hal & Hbw & Hbl).
    pose proof (project_team_score_checked_converts team_a team_b
                  (String.eqb location "1") gp_a gp_b spread a_qb_out a_wr_out
                  a_ol_out b_edge_out 0.365 0.60
                  (venue_strength location venue_input)
                  (Some a_pace) (Some b_pace) (Some b_def_pass_rate) Haw Hal)
      as EA.
    pose proof (project_team_score_checked_converts team_b team_a
                  (String.eqb location "2") gp_b gp_a (- spread) b_qb_out
                  b_wr_out b_ol_out a_edge_out 0.365 0.60
                  (venue_strength location venue_input)
                  (Some b_pace) (Some a_pace) (Some a_def_pass_rate) Hbw Hbl)
      as EB.
    rewrite EA, EB, Epa, Epb. norm. exists pa, pb. split; reflexivity.
  - intros Hn.
    destruct (converts_dec a_wr_out) as [Haw|Haw];
      [destruct (converts_dec a_ol_out) as [Hal|Hal]|].
    + rewrite (project_team_score_checked_converts team_a team_b
                 (String.eqb location "1") gp_a gp_b spread a_qb_out a_wr_out
                 a_ol_out b_edge_out 0.365 0.60
                 (venue_strength location venue_input)
                 (Some a_pace) (Some b_pace) (Some b_def_pass_rate) Haw Hal).
      rewrite Epa. norm.
      rewrite (project_team_score_checked_overflow team_b team_a);
        [reflexivity | exact Hbt | exact Hao
         | exists a_def_pass_rate; reflexivity | tauto].
    + rewrite (project_team_score_checked_overflow team_a team_b);
        [reflexivity | exact Hat | exact Hbo
         | exists b_def_pass_rate; reflexivity | tauto].
    + rewrite (project_team_score_checked_overflow team_a team_b);
        [reflexivity | exact Hat | exact Hbo
         | exists b_def_pass_rate; reflexivity | tauto].
Qed.

Lemma project_both_same_plays_witness :
  exists team_a_proj team_b_proj : projection,
    project_both {[ "KC" := league_average; "BUF" := league_average ]}
      "KC" "BUF" "1" "3" 8 8 (-3) true 0 0 0 false 0 0 0 65 63 0.60 0.61
    = Ok (team_a_proj, team_b_proj) /\
    plays team_a_proj + (if true then 3.0 else 0)
      == plays team_b_proj + (if false then 3.0 else 0).
Proof.
  assert (H : exists team_a_proj team_b_proj : projection,
    project_both {[ "KC" := league_average; "BUF" := league_average ]}
      "KC" "BUF" "1" "3" 8 8 (-3) true 0 0 0 false 0 0 0 65 63 0.60 0.61
    = Ok (team_a_proj, team_b_proj))
    by (vm_compute; eexists _, _; reflexivity).
  destruct H as (pa & pb & H). exists pa, pb. split; [exact H|].
  exact (proj1 (project_both_same_plays
                  {[ "KC" := league_average; "BUF" := league_average ]}
                  "KC" "BUF" "1" "3" 8%Z 8%Z (-3) true 0%Z 0%Z 0%Z
                  false 0%Z 0%Z 0%Z 65 63 0.60 0.61 pa pb H)).
Defined.


Lemma is_Some_true {A : Type} (o : option A) :
  match o with Some _ => true | None => false end = true -> is_Some o.
Proof. destruct o; [eexists; reflexivity | discriminate]. Qed.

Lemma project_both_total_on_merged_witness :
  exists (teams : gmap string (gmap string value))
         (team_a_proj team_b_proj : projection),
    merge_team_data sample_tendencies sample_stats sample_stats sample_stats
      sample_stats = Some teams /\
    project_both_checked teams "KC" "BUF" "2" "" 3 3 2.5 false 1 0 0 false 0 2 1
      66 0 0.58 0
    = Ok (team_a_proj, team_b_proj).
Proof.
  assert (Hc : match merge_team_data sample_tendencies sample_stats sample_stats
                       sample_stats sample_stats with
               | Some teams =>
                   match teams !! "KC" with Some _ => true | None => false end
                   && match teams !! "BUF" with Some _ => true | None => false end
               | None => false
               end = true) by (vm_compute; reflexivity).
  destruct (merge_team_data sample_tendencies sample_stats sample_stats
              sample_stats sample_stats) as [teams|] eqn:Hm;
    [|discriminate Hc].
  apply andb_prop in Hc. destruct Hc as [Ha Hb].
  apply is_Some_true in Ha, Hb.
  assert (C0 : converts 0) by (vm_compute; reflexivity).
  assert (C1 : converts 1) by (vm_compute; reflexivity).
  assert (C2 : converts 2) by (vm_compute; reflexivity).
  exists teams.
  destruct (proj1 (project_both_total_on_merged sample_tendencies sample_stats
              sample_stats sample_stats sample_stats teams "KC" "BUF" "2" ""
              3%Z 3%Z 2.5 false 1%Z 0%Z 0%Z false 0%Z 2%Z 1%Z 66 0 0.58 0
              Hm Ha Hb) (conj C1 (conj C0 (conj C0 C2))))
    as (pa & pb & H & _).
  exists pa, pb. split; [reflexivity | exact H].
Defined.

(** * Value normalisation and loading *)

Section LoadingProperties.

Variable str_strip : string -> string.
Variable str_lower : string -> string.
Variable py_float : string -> option Q.

Local Abbreviation parse := (parse_value str_strip str_lower py_float).

Lemma existsb_eqb_In (x : string) (l : list string) :
  existsb (String.eqb x) l = true <-> In x l.
Proof.
  rewrite existsb_exists. split.
  - intros (y & Hin & Heq). apply String.eqb_eq in Heq. subst. exact Hin.
  - intros H. exists x. split; [exact H | apply String.eqb_refl].
Qed.

(** X22. [parse_value] gives 0.0 for [None], for the empty string, for a
    string that strips to nothing and for one that strips and
    lower-cases to "na", "n/a", "-" or "none".  A value that is already
    a number is returned as it is, also under the percentage flag: 62
    stays 62. *)
Theorem parse_value_blanks_and_numbers (s : string) (x : Q) (is_percentage : bool) :
  parse RNone is_percentage = 0.0 /\
  parse (RStr "") is_percentage = 0.0 /\
  (str_strip s = "" -> parse (RStr s) is_percentage = 0.0) /\
  (In (str_lower (str_strip s)) sentinels -> parse (RStr s) is_percentage = 0.0) /\
  parse (RNum x) is_percentage = x.
Proof.
  split; [reflexivity|]. split; [reflexivity|].
  split; [|split; [|reflexivity]]; intros H; unfold parse_value;
    destruct (String.eqb s ""); try reflexivity; cbv zeta.
  - rewrite H. reflexivity.
  - apply existsb_eqb_In in H. rewrite H, orb_true_r. reflexivity.
Qed.

Lemma parse_value_proper (s : string) (is_percentage : bool) :
  proper_text str_strip str_lower s ->
  parse (RStr s) is_percentage =
  if contains_percent (str_strip s) then
    match py_float (str_strip (remove_percent (str_strip s))) with
    | Some x => x / 100.0
    | None => 0.0
    end
  else
    match py_float (str_strip s) with
    | Some result =>
        if is_percentage && Qgtb result 1.0 then result / 100.0 else result
    | None => 0.0
    end.
Proof.
  intros (H1 & H2 & H3). unfold parse_value. cbv zeta.
  destruct (String.eqb_spec s ""); [contradiction|].
  destruct (String.eqb_spec (str_strip s) ""); [contradiction|].
  destruct (existsb (String.eqb (str_lower (str_strip s))) sentinels) eqn:E;
    [apply existsb_eqb_In in E; contradiction|].
  reflexivity.
Qed.

(** X23. For a string that is neither blank nor a sentinel: with a percent
    sign in it the number read is divided by 100 whatever the flag; with
    none, the number read is returned, except that under the percentage
    flag a number above 1 is divided by 100, so that a flagged cell reads
    at most 1 exactly when the number in it is at most 100; and text that
    [float] rejects gives 0.0. *)
Theorem parse_value_text (s : string) (q : Q) (is_percentage : bool) :
  proper_text str_strip str_lower s ->
  (contains_percent (str_strip s) = true ->
   py_float (str_strip (remove_percent (str_strip s))) = Some q ->
   parse (RStr s) is_percentage = q / 100.0) /\
  (contains_percent (str_strip s) = false ->
   py_float (str_strip s) = Some q ->
   parse (RStr s) false = q /\
   (q <= 1 -> parse (RStr s) true = q) /\
   (1 < q -> parse (RStr s) true = q / 100.0) /\
   (parse (RStr s) true <= 1 <-> q <= 100)) /\
  (contains_percent (str_strip s) = true ->
   py_float (str_strip (remove_percent (str_strip s))) = None ->
   parse (RStr s) is_percentage = 0.0) /\
  (contains_percent (str_strip s) = false ->
   py_float (str_strip s) = None ->
   parse (RStr s) is_percentage = 0.0).
Proof.
  intros Hp. rewrite !(parse_value_proper s _ Hp).
  split; [intros -> ->; reflexivity|].
  split; [|split; intros -> ->; reflexivity].
  intros -> ->. cbn [andb].
  assert (Hdiv : q / 100.0 == q * 0.01) by field.
  unfold Qgtb.
  destruct (Qle_bool q 1.0) eqn:E;
    [apply Qle_bool_iff in E | apply Qle_bool_false in E]; cbn [negb].
  - repeat split; try reflexivity; intros; lra.
  - split; [reflexivity|]. split; [intros; lra|]. split; [reflexivity|].
    rewrite Hdiv. split; intros; lra.
Qed.

Lemma fold_left_invariant {A B : Type} (P : A -> Prop) (f : A -> B -> A) :
  (forall a b, P a -> P (f a b)) ->
  forall (l : list B) (a : A), P a -> P (fold_left f l a).
Proof.
  intros Hf l. induction l as [|b l IH]; intros a Ha; [exact Ha|].
  cbn. apply IH, Hf, Ha.
Qed.

Lemma team_aliases_values (t alias : string) :
  team_aliases !! t = Some alias -> alias = "LAR" \/ alias = "WAS".
Proof.
  unfold team_aliases.
  destruct (decide (t = "LA")) as [->|N1];
    [rewrite lookup_insert_eq; intros [= <-]; left; reflexivity|].
  destruct (decide (t = "WSH")) as [->|N2].
  - rewrite lookup_insert_ne, lookup_singleton_eq by done.
    intros [= <-]. right; reflexivity.
  - rewrite lookup_insert_ne, lookup_singleton_ne by done. discriminate.
Qed.

Lemma team_aliases_keys (t : string) :
  team_aliases !! t = None <-> t <> "LA" /\ t <> "WSH".
Proof.
  unfold team_aliases.
  destruct (decide (t = "LA")) as [->|N1];
    [rewrite lookup_insert_eq; split; [discriminate | intros [H _]; contradiction]|].
  destruct (decide (t = "WSH")) as [->|N2].
  - rewrite lookup_insert_ne, lookup_singleton_eq by done.
    split; [discriminate | intros [_ H]; contradiction].
  - rewrite lookup_insert_ne, lookup_singleton_ne by done. tauto.
Qed.

Lemma rbsdm_row_invariant
    (stats : gmap string (gmap string Q)) (row : gmap string (option string)) :
  (forall team r, stats !! team = Some r -> stats_entry_ok team r) ->
  forall team r,
    rbsdm_row str_strip str_lower py_float stats row !! team = Some r ->
    stats_entry_ok team r.
Proof.
  intros Hs team r. unfold rbsdm_row. cbv zeta.
  assert (Hins : forall t' : string,
    t' <> "LA" /\ t' <> "WSH" ->
    forall rec : gmap string Q,
      (is_Some (rec !! "dropback_epa") /\ is_Some (rec !! "dropback_sr") /\
       is_Some (rec !! "rush_epa") /\ is_Some (rec !! "rush_sr")) ->
      (if negb (String.eqb t' "") && negb (String.eqb t' "Team")
       then <[t' := rec]> stats else stats) !! team = Some r ->
      stats_entry_ok team r).
  { intros t' [H1 H2] rec Hrec.
    destruct (String.eqb_spec t' ""); cbn [negb andb]; [apply Hs|].
    destruct (String.eqb_spec t' "Team"); cbn [negb]; [apply Hs|].
    destruct (decide (t' = team)) as [<-|Hne].
    - rewrite lookup_insert_eq. intros [= <-].
      unfold stats_entry_ok. repeat (split; [assumption|]). exact Hrec.
    - rewrite lookup_insert_ne by exact Hne. apply Hs. }
  destruct (find_team str_strip row team_columns) as [t0|]; [|apply Hs].
  destruct (team_aliases !! t0) as [alias|] eqn:E.
  - apply Hins.
    + apply team_aliases_values in E. destruct E as [-> | ->]; split; discriminate.
    + repeat split; eexists; by simplify_map_eq.
  - apply Hins.
    + apply team_aliases_keys. exact E.
    + repeat split; eexists; by simplify_map_eq.
Qed.

(** X24. Every entry of a table that [load_rbsdm_stats] returns is filed
    under a name that is not empty, not "Team", not "LA" and not "WSH"
    (the aliases file these two as "LAR" and "WAS"), and holds all four
    statistics, whatever columns the file has. *)
Theorem load_rbsdm_stats_entries
    (file : option (list (gmap string (option string))))
    (stats : gmap string (gmap string Q)) (team : string) (r : gmap string Q) :
  load_rbsdm_stats str_strip str_lower py_float file = Some stats ->
  stats !! team = Some r ->
  team <> "" /\ team <> "Team" /\ team <> "LA" /\ team <> "WSH" /\
  is_Some (r !! "dropback_epa") /\ is_Some (r !! "dropback_sr") /\
  is_Some (r !! "rush_epa") /\ is_Some (r !! "rush_sr").
Proof.
  unfold load_rbsdm_stats. destruct file as [rows|]; [|discriminate].
  intros [= <-]. revert team r.
  apply (fold_left_invariant
           (fun stats => forall team r, stats !! team = Some r -> stats_entry_ok team r)).
  - intros a b. apply rbsdm_row_invariant.
  - intros team r H. rewrite lookup_empty in H. discriminate.
Qed.

Lemma tendencies_row_invariant
    (tendencies : gmap string (gmap string Q)) (row : gmap string (option string)) :
  (forall team r, tendencies !! team = Some r -> tendencies_entry_ok team r) ->
  forall team r,
    tendencies_row str_strip str_lower py_float tendencies row !! team = Some r ->
    tendencies_entry_ok team r.
Proof.
  intros Hs team r. unfold tendencies_row. cbv zeta.
  destruct (find_team str_strip row team_columns) as [t0|]; [|apply Hs].
  destruct (String.eqb_spec t0 ""); cbn [negb]; [apply Hs|].
  destruct (decide (t0 = team)) as [<-|Hne].
  - rewrite lookup_insert_eq. intros [= <-].
    unfold tendencies_entry_ok. split; [assumption|].
    repeat split; eexists; by simplify_map_eq.
  - rewrite lookup_insert_ne by exact Hne. apply Hs.
Qed.

Lemma load_team_tendencies_ok
    (file : option (list (gmap string (option string))))
    (tendencies : gmap string (gmap string Q)) (team : string) (r : gmap string Q) :
  load_team_tendencies str_strip str_lower py_float file = Some tendencies ->
  tendencies !! team = Some r ->
  tendencies_entry_ok team r.
Proof.
  unfold load_team_tendencies. destruct file as [rows|]; [|discriminate].
  intros [= <-]. revert team r.
  apply (fold_left_invariant
           (fun t => forall team r, t !! team = Some r -> tendencies_entry_ok team r)).
  - intros a b. apply tendencies_row_invariant.
  - intros team r H. rewrite lookup_empty in H. discriminate.
Qed.

Lemma load_rbsdm_stats_ok
    (file : option (list (gmap string (option string))))
    (stats : gmap string (gmap string Q)) (team : string) (r : gmap string Q) :
  load_rbsdm_stats str_strip str_lower py_float file = Some stats ->
  stats !! team = Some r ->
  stats_entry_ok team r.
Proof.
  unfold load_rbsdm_stats. destruct file as [rows|]; [|discriminate].
  intros [= <-]. revert team r.
  apply (fold_left_invariant
           (fun stats => forall team r, stats !! team = Some r -> stats_entry_ok team r)).
  - intros a b. apply rbsdm_row_invariant.
  - intros team r H. rewrite lookup_empty in H. discriminate.
Qed.

Lemma load_rbsdm_stats_no_alias
    (file : option (list (gmap string (option string)))) (name : string) :
  name = "LA" \/ name = "WSH" ->
  default ∅ (default ∅ (load_rbsdm_stats str_strip str_lower py_float file) !! name)
  = (∅ : gmap string Q).
Proof.
  intros Hn.
  destruct (load_rbsdm_stats str_strip str_lower py_float file) as [stats|] eqn:E;
    cbn; [|rewrite lookup_empty; reflexivity].
  destruct (stats !! name) as [r|] eqn:Er; [|reflexivity].
  destruct (load_rbsdm_stats_ok _ _ _ _ E Er) as (_ & _ & H1 & H2 & _).
  destruct Hn; contradiction.
Qed.

Lemma merge_team_data_lookup
    (tendencies off_season off_l5 def_season def_l5 :
       option (gmap string (gmap string Q)))
    (teams : gmap string (gmap string value)) (name : string)
    (record : gmap string value) :
  merge_team_data tendencies off_season off_l5 def_season def_l5 = Some teams ->
  teams !! name = Some record ->
  exists tend : gmap string Q,
    default ∅ tendencies !! name = Some tend /\
    tendencies <> None /\
    record = merge_team tend
               (default ∅ (default ∅ off_season !! name))
               (default ∅ (default ∅ off_l5 !! name))
               (default ∅ (default ∅ def_season !! name))
               (default ∅ (default ∅ def_l5 !! name)).
Proof.
  unfold merge_team_data.
  destruct (negb (forallb truthy
                    [tendencies; off_season; off_l5; def_season; def_l5])) eqn:E;
    [discriminate|].
  intros [= <-]. rewrite map_lookup_imap.
  destruct (default ∅ tendencies !! name) as [tend|] eqn:Et; [|discriminate].
  cbn. intros [= <-]. exists tend. split; [reflexivity|]. split; [|reflexivity].
  intros ->. cbn in E. discriminate.
Qed.

(** X25. In the teams that [load_teams] returns every record is filed
    under a non-empty name and holds its pace and its defensive pass rate
    as numbers, never [None].  And the record of a team that the
    tendencies file lists as "LA" or "WSH" is merged with four empty
    statistics rows, whatever the statistics files contain, so it holds
    the no-data values: 0.0 for the EPAs, 0.46 and 0.43 for the success
    rates. *)
Theorem load_teams_records
    (pass oszn ol5 dszn dl5 : option (list (gmap string (option string))))
    (teams : gmap string (gmap string value)) (name : string)
    (record : gmap string value) :
  load_teams str_strip str_lower py_float pass oszn ol5 dszn dl5 = Some teams ->
  teams !! name = Some record ->
  name <> "" /\
  (exists q : Q, record !! "pace" = Some (Some q)) /\
  (exists q : Q, record !! "def_pass_rate_against" = Some (Some q)) /\
  (name = "LA" \/ name = "WSH" ->
   exists tend : gmap string Q,
     record = merge_team tend ∅ ∅ ∅ ∅ /\
     record !! "season_pass_epa" = Some (Some 0.0) /\
     record !! "season_pass_success" = Some (Some 0.46) /\
     record !! "season_run_success" = Some (Some 0.43) /\
     record !! "def_season_pass_epa" = Some (Some 0.0)).
Proof.
  unfold load_teams. cbv zeta. intros Hm Hr.
  destruct (merge_team_data_lookup _ _ _ _ _ _ _ _ Hm Hr)
    as (tend & Ht & Hsome & ->).
  destruct (load_team_tendencies str_strip str_lower py_float pass)
    as [tendencies|] eqn:El; [|contradiction].
  cbn in Ht.
  destruct (load_team_tendencies_ok _ _ _ _ El Ht)
    as (Hname & _ & _ & [qp Hp] & [qd Hd]).
  split; [exact Hname|].
  split; [exists qp; rewrite merge_team_pace, Hp; reflexivity|].
  split; [exists qd; rewrite merge_team_def_pass_rate, Hd; reflexivity|].
  intros Hn. exists tend.
  rewrite !(load_rbsdm_stats_no_alias _ name Hn).
  split; [reflexivity|].
  unfold merge_team. cbn [list_to_map foldr].
  repeat split; by simplify_map_eq.
Qed.

Lemma fold_no_team_rows
    (f : gmap string (gmap string Q) -> gmap string (option string)
         -> gmap string (gmap string Q))
    (rows : list (gmap string (option string))) :
  (forall acc row, In row rows -> f acc row = acc) ->
  fold_left f rows ∅ = ∅.
Proof.
  generalize (∅ : gmap string (gmap string Q)) as acc.
  induction rows as [|row rows IH]; intros acc H; [reflexivity|].
  cbn. rewrite (H acc row) by (left; reflexivity).
  apply IH. intros acc' row' Hin. apply H. right. exact Hin.
Qed.

(** X26. No teams are loaded when one of the five files does not exist, or
    when the tendencies file exists but none of its rows has a non-empty
    cell under "Team", "team", "Abbr" or "abbr". *)
Theorem load_teams_nothing
    (pass oszn ol5 dszn dl5 : option (list (gmap string (option string)))) :
  (pass = None \/ oszn = None \/ ol5 = None \/ dszn = None \/ dl5 = None ->
   load_teams str_strip str_lower py_float pass oszn ol5 dszn dl5 = None) /\
  (forall rows : list (gmap string (option string)),
     pass = Some rows ->
     (forall row, In row rows -> find_team str_strip row team_columns = None) ->
     load_teams str_strip str_lower py_float pass oszn ol5 dszn dl5 = None).
Proof.
  unfold load_teams, merge_team_data. cbv zeta. split.
  - intros [-> | [-> | [-> | [-> | ->]]]]; cbn [load_team_tendencies load_rbsdm_stats];
      cbn [forallb truthy]; rewrite ?andb_false_r; reflexivity.
  - intros rows -> Hrows. cbn [load_team_tendencies].
    rewrite fold_no_team_rows.
    + cbn [forallb truthy]. rewrite bool_decide_eq_true_2 by reflexivity.
      reflexivity.
    + intros acc row Hin. unfold tendencies_row. cbv zeta.
      rewrite (Hrows row Hin). reflexivity.
Qed.

End LoadingProperties.

Lemma parse_value_text_witness :
  parse_value sample_strip sample_lower sample_float (RStr "48") true
  = 48 / 100.0.
Proof.
  assert (Hp : proper_text sample_strip sample_lower "48").
  { unfold proper_text, sample_strip, sample_lower, sentinels. cbn [In].
    split; [discriminate|]. split; [discriminate|].
    intros [H | [H | [H | [H | []]]]]; discriminate H. }
  assert (Hq : (1 < 48)%Q) by reflexivity.
  exact (proj1 (proj2 (proj2
           (proj1 (proj2 (parse_value_text sample_strip sample_lower sample_float
                            "48" 48 true Hp))
              eq_refl eq_refl)))
           Hq).
Defined.

Lemma load_rbsdm_stats_entries_witness :
  exists (stats : gmap string (gmap string Q)) (r : gmap string Q),
    load_rbsdm_stats sample_strip sample_lower sample_float sample_stats_file
    = Some stats /\
    stats !! "LAR" = Some r /\
    is_Some (r !! "dropback_sr").
Proof.
  assert (Hc : match load_rbsdm_stats sample_strip sample_lower sample_float
                       sample_stats_file with
               | Some stats =>
                   match stats !! "LAR" with Some _ => true | None => false end
               | None => false
               end = true) by (vm_compute; reflexivity).
  destruct (load_rbsdm_stats sample_strip sample_lower sample_float
              sample_stats_file) as [stats|] eqn:E; [|discriminate Hc].
  destruct (stats !! "LAR") as [r|] eqn:Er; [|discriminate Hc].
  exists stats, r. split; [reflexivity|]. split; [exact Er|].
  exact (proj1 (proj2 (proj2 (proj2 (proj2 (proj2
           (load_rbsdm_stats_entries sample_strip sample_lower sample_float
              sample_stats_file stats "LAR" r E Er))))))).
Defined.

Lemma load_teams_records_witness :
  exists (teams : gmap string (gmap string value)) (record : gmap string value),
    load_teams sample_strip sample_lower sample_float sample_tendencies_file
      sample_stats_file sample_stats_file sample_stats_file sample_stats_file
    = Some teams /\
    teams !! "LA" = Some record /\
    exists q : Q, record !! "pace" = Some (Some q).
Proof.
  assert (Hc : match load_teams sample_strip sample_lower sample_float
                       sample_tendencies_file sample_stats_file
                       sample_stats_file sample_stats_file sample_stats_file with
               | Some teams =>
                   match teams !! "LA" with Some _ => true | None => false end
               | None => false
               end = true) by (vm_compute; reflexivity).
  destruct (load_teams sample_strip sample_lower sample_float
              sample_tendencies_file sample_stats_file sample_stats_file
              sample_stats_file sample_stats_file) as [teams|] eqn:E;
    [|discriminate Hc].
  destruct (teams !! "LA") as [record|] eqn:Er; [|discriminate Hc].
  exists teams, record. split; [reflexivity|]. split; [exact Er|].
  exact (proj1 (proj2
           (load_teams_records sample_strip sample_lower sample_float
              sample_tendencies_file sample_stats_file sample_stats_file
              sample_stats_file sample_stats_file teams "LA" record E Er))).
Defined.

Lemma parse_value_blanks_and_numbers_witness :
  parse_value sample_strip sample_lower sample_float (RStr "n/a") true = 0.0.
Proof.
  apply (proj1 (proj2 (proj2 (proj2
           (parse_value_blanks_and_numbers sample_strip sample_lower
              sample_float "n/a" 0 true))))).
  right; left; reflexivity.
Defined.

Lemma load_teams_nothing_witness :
  load_teams sample_strip sample_lower sample_float
    (Some [ {[ "Pass Rate" := Some "62" ]} ]) sample_stats_file
    sample_stats_file sample_stats_file sample_stats_file = None.
Proof.
  apply (proj2 (load_teams_nothing sample_strip sample_lower sample_float
                  (Some [ {[ "Pass Rate" := Some "62" ]} ]) sample_stats_file
                  sample_stats_file sample_stats_file sample_stats_file)
           [ {[ "Pass Rate" := Some "62" ]} ] eq_refl).
  intros row [<- | []]. vm_compute. reflexivity.
Defined.
